(** * ilcs-scrape: the filename classifier, the crawler and the page extractors

    A shallow embedding of [ilcs-scrape.py].  Python strings are lists of
    characters; a character is a code point below 256 (Latin-1), which
    covers the ASCII markers of the file names, the line feed and the
    non-breaking space U+00A0 the statute pages indent with.  The parsed
    page (the BeautifulSoup tree) is the input of the page functions; the
    site is a map from URLs to what the fetch layer returns for them. *)

From Stdlib Require Import Ascii String.
From Stdlib Require Import List ZArith Lia Bool Arith.
Import ListNotations.

Set Implicit Arguments.

Definition str := list ascii.

(** String literals are read as [str]. *)
Coercion list_ascii_of_string : string >-> list.

Open Scope string_scope.
Open Scope list_scope.

(** ** Python's [str] operations *)
Module PyStr.

Definition LF : ascii := "010"%char.
Definition NBSP : ascii := "160"%char.
Definition SPACE : ascii := " "%char.

(** [str.isspace] on one code point below 256: TAB, LF, VT, FF, CR,
    the separators 0x1c-0x1f, the space, NEL (0x85) and the
    non-breaking space (0xa0). *)
Definition isspace (c : ascii) : bool :=
  let n := nat_of_ascii c in
  (((9 <=? n) && (n <=? 13)) || ((28 <=? n) && (n <=? 32))
   || (n =? 133) || (n =? 160))%nat.

Fixpoint eqb (a b : str) : bool :=
  match a, b with
  | [], [] => true
  | x :: a', y :: b' => Ascii.eqb x y && eqb a' b'
  | _, _ => false
  end.

(** [s.startswith(p)] *)
Fixpoint startswith (p s : str) : bool :=
  match p, s with
  | [], _ => true
  | x :: p', y :: s' => Ascii.eqb x y && startswith p' s'
  | _ :: _, [] => false
  end.

(** Index of the first occurrence of [sub] in [s]. *)
Fixpoint index (sub s : str) : option nat :=
  if startswith sub s then Some 0
  else match s with
       | [] => None
       | _ :: s' => option_map S (index sub s')
       end.

(** [sub in s] *)
Definition contains (sub s : str) : bool :=
  match index sub s with Some _ => true | None => false end.

(** [s.find(sub, start)] for [start >= 0]: the lowest index at or after
    [start] where [sub] occurs, [-1] when there is none. *)
Definition find (s sub : str) (start : nat) : Z :=
  if (length s <? start)%nat then (-1)%Z
  else match index sub (skipn start s) with
       | Some i => Z.of_nat (start + i)
       | None => (-1)%Z
       end.

(** A slice bound as Python normalises it: a negative bound counts from
    the end, and both ends are clamped to [0, len]. *)
Definition bound (len : nat) (i : Z) : nat :=
  if (i <? 0)%Z then Z.to_nat (Z.max 0 (i + Z.of_nat len))
  else Nat.min (Z.to_nat i) len.

(** [s[a:b]] *)
Definition slice (s : str) (a b : Z) : str :=
  let a' := bound (length s) a in
  let b' := bound (length s) b in
  firstn (b' - a') (skipn a' s).

Fixpoint lstrip (s : str) : str :=
  match s with
  | c :: s' => if isspace c then lstrip s' else s
  | [] => []
  end.

Fixpoint rstrip (s : str) : str :=
  match s with
  | [] => []
  | c :: s' =>
      match rstrip s' with
      | [] => if isspace c then [] else [c]
      | t => c :: t
      end
  end.

(** [s.strip()] *)
Definition strip (s : str) : str := rstrip (lstrip s).

(** [s.split(sep)] for a one-character separator: never empty. *)
Fixpoint split_chr (sep : ascii) (s : str) : list str :=
  match s with
  | [] => [[]]
  | c :: s' =>
      if Ascii.eqb c sep then [] :: split_chr sep s'
      else match split_chr sep s' with
           | w :: ws => (c :: w) :: ws
           | [] => [[c]]
           end
  end.

(** [s.split(sep, 1)]: the text before the first [sep] and, when [sep]
    occurs, the text after it. *)
Definition split1 (sep s : str) : str * option str :=
  match index sep s with
  | Some i => (firstn i s, Some (skipn (i + length sep) s))
  | None => (s, None)
  end.

(** [sep.join(l)] *)
Fixpoint join (sep : str) (l : list str) : str :=
  match l with
  | [] => []
  | [x] => x
  | x :: l' => x ++ sep ++ join sep l'
  end.

(** [s.replace(a, b)] for single characters. *)
Definition replace_chr (a b : ascii) (s : str) : str :=
  map (fun c => if Ascii.eqb c a then b else c) s.

(** [s.count(c)] for a single character. *)
Definition count_chr (c : ascii) (s : str) : nat :=
  length (filter (Ascii.eqb c) s).

(** [s.split()]: the maximal runs of non-space characters. *)
Fixpoint words_aux (cur : str) (s : str) : list str :=
  match s with
  | [] => match cur with [] => [] | _ => [rev cur] end
  | c :: s' =>
      if isspace c
      then match cur with [] => words_aux [] s' | _ => rev cur :: words_aux [] s' end
      else words_aux (c :: cur) s'
  end.

Definition words (s : str) : list str := words_aux [] s.

End PyStr.

(** ** Python's [re]: a backtracking matcher

    Alternatives are tried left to right, a greedy star takes one more
    iteration before it tries the rest of the pattern and a lazy one the
    other way round, as [re] does; [search] tries the start positions
    from the left. *)
Module Re.

Inductive re : Type :=
| Eps
| Chr (p : ascii -> bool)
| Bol
| Seq (a b : re)
| Alt (a b : re)
| Star (greedy : bool) (a : re)
| Group (n : nat) (a : re).

Definition caps := list (nat * str).

(** A continuation gets the position reached, the text left and the
    groups captured so far. *)
Definition cont := nat -> str -> caps -> option (nat * caps).

Definition orelse (A : Type) (x : option A) (y : unit -> option A) : option A :=
  match x with Some r => Some r | None => y tt end.

(** The iterations of a star: [step] matches the starred pattern once,
    [k] is what follows the star.  An iteration that consumes nothing is
    not repeated, so [fuel] above the length of the text is never used
    up. *)
Fixpoint star_loop (greedy : bool) (step : nat -> str -> caps -> cont -> option (nat * caps))
    (k : cont) (fuel : nat) (pos : nat) (s : str) (c : caps) {struct fuel}
  : option (nat * caps) :=
  match fuel with
  | O => k pos s c
  | S fuel' =>
      let more := fun _ : unit =>
        step pos s c (fun pos' s' c' =>
          if (pos <? pos')%nat then star_loop greedy step k fuel' pos' s' c' else None) in
      if greedy then orelse (more tt) (fun _ => k pos s c)
      else orelse (k pos s c) more
  end.

Fixpoint m (r : re) (pos : nat) (s : str) (c : caps) (k : cont) {struct r}
  : option (nat * caps) :=
  match r with
  | Eps => k pos s c
  | Chr p =>
      match s with
      | x :: s' => if p x then k (S pos) s' c else None
      | [] => None
      end
  | Bol => if (pos =? 0)%nat then k pos s c else None
  | Seq a b => m a pos s c (fun pos' s' c' => m b pos' s' c' k)
  | Alt a b => orelse (m a pos s c k) (fun _ => m b pos s c k)
  | Star greedy a => star_loop greedy (m a) k (S (length s)) pos s c
  | Group n a =>
      m a pos s c (fun pos' s' c' => k pos' s' ((n, firstn (pos' - pos) s) :: c'))
  end.

(** A match object: where the match starts and stops in the subject,
    and the groups. *)
Record Match := { subject : str; start : nat; stop : nat; groups : caps }.

Definition match_at (r : re) (pos : nat) (s : str) : option (nat * caps) :=
  m r pos s [] (fun e _ c => Some (e, c)).

Fixpoint search_from (r : re) (whole : str) (pos : nat) (s : str) : option Match :=
  match match_at r pos s with
  | Some (e, c) => Some {| subject := whole; start := pos; stop := e; groups := c |}
  | None =>
      match s with
      | [] => None
      | _ :: s' => search_from r whole (S pos) s'
      end
  end.

(** [re.search(r, s)] *)
Definition search (r : re) (s : str) : option Match := search_from r s 0 s.

(** [m.group(0)] *)
Definition group0 (x : Match) : str :=
  firstn (stop x - start x) (skipn (start x) (subject x)).

Fixpoint lookup (n : nat) (c : caps) : option str :=
  match c with
  | [] => None
  | (i, t) :: c' => if (i =? n)%nat then Some t else lookup n c'
  end.

(** [m.group(n)] for a group that took part in the match. *)
Definition group (n : nat) (x : Match) : str :=
  match lookup n (groups x) with Some t => t | None => [] end.

(** Pattern syntax. *)
Definition chr (c : ascii) : re := Chr (Ascii.eqb c).
Definition dot : re := Chr (fun c => negb (Ascii.eqb c PyStr.LF)).
Definition dotall : re := Chr (fun _ => true).
Definition space : re := Chr PyStr.isspace.
Definition plus (a : re) : re := Seq a (Star true a).
Definition opt (a : re) : re := Alt a Eps.

Fixpoint lit (w : str) : re :=
  match w with
  | [] => Eps
  | c :: w' => Seq (chr c) (lit w')
  end.

Fixpoint alts (l : list re) : re :=
  match l with
  | [] => Chr (fun _ => false)
  | [a] => a
  | a :: l' => Alt a (alts l')
  end.

(** [re.escape(w)]: the pattern that matches [w] and nothing else. *)
Definition escape (w : str) : re := lit w.

End Re.

(** ** BeautifulSoup's tree *)
Module Bs4.

(** The classes of string nodes: [get_text] keeps [NavigableString]
    and [CData] and leaves the others out; all of them are [str]. *)
Inductive string_class : Type :=
| NavigableString | CData | Comment | Declaration | Doctype
| ProcessingInstruction | Script | Stylesheet | TemplateString.

#[warnings="-register-all"]
Inductive node : Type :=
| Str (cls : string_class) (text : str)
| Tag (name : str) (attrs : list (str * str)) (contents : list node).

(** The object [BeautifulSoup(...)] returns: a tag without siblings. *)
Definition BeautifulSoup (contents : list node) : node :=
  Tag "[document]" [] contents.

(** [n.descendants], in document order. *)
Fixpoint descendants (n : node) : list node :=
  match n with
  | Str _ _ => []
  | Tag _ _ cs => flat_map (fun c => c :: descendants c) cs
  end.

Fixpoint assoc (k : str) (l : list (str * str)) : option str :=
  match l with
  | [] => None
  | (k', v) :: l' => if PyStr.eqb k' k then Some v else assoc k l'
  end.

(** [tag.get(k)] *)
Definition get (n : node) (k : str) : option str :=
  match n with
  | Tag _ attrs _ => assoc k attrs
  | Str _ _ => None
  end.

Definition is_tag (name : str) (n : node) : bool :=
  match n with
  | Tag name' _ _ => PyStr.eqb name' name
  | Str _ _ => false
  end.

Definition has_attr (k v : str) (n : node) : bool :=
  match get n k with
  | Some v' => PyStr.eqb v' v
  | None => false
  end.

(** [n.find_all(name)] and [n.find(name)] *)
Definition find_all (name : str) (n : node) : list node :=
  filter (is_tag name) (descendants n).

Definition find (name : str) (n : node) : option node :=
  List.find (is_tag name) (descendants n).

(** [n.find(name, k=v)] *)
Definition find_attr (name k v : str) (n : node) : option node :=
  List.find (fun d => is_tag name d && has_attr k v d) (descendants n).

Definition interesting (c : string_class) : bool :=
  match c with
  | NavigableString | CData => true
  | _ => false
  end.

(** The strings [get_text] joins: with [strip], every string is
    stripped and the empty ones are dropped. *)
Definition all_strings (strip : bool) (n : node) : list str :=
  flat_map (fun d =>
    match d with
    | Str c t =>
        if interesting c then
          if strip then
            match PyStr.strip t with
            | [] => []
            | t' => [t']
            end
          else [t]
        else []
    | Tag _ _ _ => []
    end) (descendants n).

(** [n.get_text(separator=sep, strip=strip)] *)
Definition get_text (sep : str) (strip : bool) (n : node) : str :=
  PyStr.join sep (all_strings strip n).

(** A string node in its place: its text, its preceding siblings and
    the preceding siblings of its parent, the nearest first, as
    [previous_siblings] yields them. *)
Record place : Type :=
  { text_of : str;
    previous_siblings : list node;
    parent_previous_siblings : list node }.

(** [n.find(string=p)] when [n] has the preceding siblings [prev] and
    its parent has [pprev]: the first string node below [n], in
    document order, whose text satisfies [p]. *)
Fixpoint find_string_in (p : str -> bool) (pprev prev : list node) (n : node)
  : option place :=
  match n with
  | Str _ t =>
      if p t then
        Some {| text_of := t; previous_siblings := prev;
                parent_previous_siblings := pprev |}
      else None
  | Tag _ _ cs =>
      (fix scan (before : list node) (l : list node) : option place :=
         match l with
         | [] => None
         | c :: l' =>
             match find_string_in p prev before c with
             | Some x => Some x
             | None => scan (c :: before) l'
             end
         end) [] cs
  end.

(** [soup.find(string=re.compile(r))] on the whole document. *)
Definition find_string (r : Re.re) (soup : node) : option place :=
  find_string_in (fun t => match Re.search r t with Some _ => true | None => false end)
                 [] [] soup.

End Bs4.

(** ** Exceptions *)
Inductive exn : Type :=
| AttributeError | KeyError | IndexError | ValueError | RequestException.

Inductive result (A : Type) : Type :=
| Ok (a : A)
| Raise (e : exn).
Arguments Ok {A} a.
Arguments Raise {A} e.

Definition bind (A B : Type) (x : result A) (f : A -> result B) : result B :=
  match x with
  | Ok a => f a
  | Raise e => Raise e
  end.

Notation "x <- c ;; k" := (bind c (fun x => k))
  (at level 61, c at next level, right associativity).

(** ** The fetch layer

    [_request_util] returns the response, returns [None] after a timeout,
    a connection error or an HTTP error, or re-raises any other request
    error.  A site gives that outcome for every URL; the response is
    given by the tree [BeautifulSoup] parses from its text. *)
Definition site := str -> result (option Bs4.node).

Definition _request_util (web : site) (url : str) : result (option Bs4.node) :=
  web url.

(** ** Directory listings *)
Record DirectoryEntry : Type := { label : str; href : option str }.

Definition eqb_href (a b : option str) : bool :=
  match a, b with
  | Some x, Some y => PyStr.eqb x y
  | _, _ => false
  end.

(** The links of the [<pre>] block, the parent-directory entry left out. *)
Definition url_links (soup : Bs4.node) : list DirectoryEntry :=
  match Bs4.find "pre" soup with
  | Some pre_tag =>
      flat_map (fun link =>
        let href := Bs4.get link "href" in
        let label := Bs4.get_text [] false link in
        if negb (PyStr.eqb label "[To Parent Directory]")
        then [{| label := label; href := href |}]
        else []) (Bs4.find_all "a" pre_tag)
  | None => []
  end.

(** [_get_pages]: [response.text] raises [AttributeError] when the
    response is [None]; [pd.json_normalize([])] is a table without
    columns, so [data['label']] raises [KeyError] on it. *)
Definition _get_pages (web : site) (url_path base_url : str)
  : result (list DirectoryEntry) :=
  response <- _request_util web (base_url ++ url_path) ;;
  match response with
  | None => Raise AttributeError
  | Some soup =>
      match url_links soup with
      | [] => Raise KeyError
      | data => Ok (filter (fun e => negb (PyStr.eqb (label e) "aReadMe")) data)
      end
  end.

(** ** The filename classifier *)

(** The pattern "(A|F|K|HArt.|HTit.|HPt.|HDiv.|Hprec.|HCh.)": its dot is
    the dot of regular expressions, any character but a line feed. *)
Definition letters_pattern : Re.re :=
  Re.Group 1 (Re.alts
    [ Re.lit "A"; Re.lit "F"; Re.lit "K";
      Re.Seq (Re.lit "HArt") Re.dot; Re.Seq (Re.lit "HTit") Re.dot;
      Re.Seq (Re.lit "HPt") Re.dot; Re.Seq (Re.lit "HDiv") Re.dot;
      Re.Seq (Re.lit "Hprec") Re.dot; Re.Seq (Re.lit "HCh") Re.dot ]).

Definition _parse_filestring (s : str) : str * str * str :=
  let first_9_digits := firstn 9 s in
  let letters_match := Re.search letters_pattern (skipn 9 s) in
  let letters :=
    match letters_match with
    | Some mt => Re.group0 mt
    | None => []
    end in
  let letters_pos :=
    match letters with
    | [] => (-1)%Z
    | _ => PyStr.find s letters 9
    end in
  let remaining_numbers :=
    if (letters_pos =? -1)%Z then []
    else
      let start_pos := (letters_pos + Z.of_nat (length letters))%Z in
      let end_pos := PyStr.find s ".html" 0 in
      PyStr.slice s start_pos end_pos in
  (first_9_digits, letters, remaining_numbers).

(** ** The index *)
Record IndexRecord : Type :=
  { chapter_name : str;
    chapter_url : str;
    act_name : str;
    act_url : str;
    section_file : str;
    section_url : option str;
    ilcs_index_number : str;
    ilcs_index_type : str;
    ilcs_index_ext : str;
    ilcs_index_type_label : str }.

Definition mapping : list (str * str) :=
  [ ("A" : str, "Chapter (A)" : str);
    ("F" : str, "Act (F)" : str);
    ("K" : str, "Section (K)" : str);
    ("HArt." : str, "Article (HArt)" : str);
    ("HPt." : str, "Part (HPt)" : str);
    ("HTit." : str, "Title (HTit)" : str);
    ("HDiv." : str, "Division (HDiv)" : str);
    ("HArt " : str, "Article (HArtDiv)" : str);
    ("Hprec." : str, "Preceding Section (HprecSec)" : str);
    ("HArt," : str, "Article (HArt)" : str);
    ("HCh." : str, "Chapter (HCh)" : str);
    ("HCh " : str, "Chapter (HChArt)" : str) ].

(** [.map(mapping).fillna('Unknown')] on one value. *)
Definition type_label (t : str) : str :=
  match Bs4.assoc t mapping with
  | Some l => l
  | None => "Unknown"
  end.

(** A row of [df_index] before the classification columns are added. *)
Record SectionRow : Type :=
  { row_chapter_name : str;
    row_chapter_url : str;
    row_act_name : str;
    row_act_url : str;
    row_section_file : str;
    row_section_url : option str }.

Definition classify_row (r : SectionRow) : IndexRecord :=
  let '(number, type, ext) := _parse_filestring (row_section_file r) in
  {| chapter_name := row_chapter_name r;
     chapter_url := row_chapter_url r;
     act_name := row_act_name r;
     act_url := row_act_url r;
     section_file := row_section_file r;
     section_url := row_section_url r;
     ilcs_index_number := number;
     ilcs_index_type := type;
     ilcs_index_ext := ext;
     ilcs_index_type_label := type_label type |}.

(** A [for] loop whose body adds rows: the first exception ends it. *)
Fixpoint for_each (A B : Type) (l : list A) (body : A -> result (list B))
  : result (list B) :=
  match l with
  | [] => Ok []
  | a :: l' =>
      rows <- body a ;;
      rest <- for_each l' body ;;
      Ok (rows ++ rest)
  end.

(** [data.loc[data['href'] == url, 'label'].values[0]]: the label of the
    first row with that href; [IndexError] when no row has it, as for an
    anchor without [href], which equals nothing. *)
Definition label_of (data : list DirectoryEntry) (url : option str) : result str :=
  match List.find (fun e => eqb_href (href e) url) data with
  | Some e => Ok (label e)
  | None => Raise IndexError
  end.

(** The path an f-string makes of a value that may be [None]. *)
Definition format_path (url : option str) : str :=
  match url with
  | Some u => u
  | None => "None"
  end.

(** The rows one act contributes. *)
Definition act_rows (web : site) (base_url : str) (acts_data : list DirectoryEntry)
    (chapter_name : str) (chapter_url : option str) (act_url : option str)
  : result (list SectionRow) :=
  act_name <- label_of acts_data act_url ;;
  sections_data <- _get_pages web (format_path act_url) base_url ;;
  Ok (map (fun e =>
        {| row_chapter_name := chapter_name;
           row_chapter_url := format_path chapter_url;
           row_act_name := act_name;
           row_act_url := format_path act_url;
           row_section_file := label e;
           row_section_url := href e |}) sections_data).

(** The rows one chapter contributes. *)
Definition chapter_rows (web : site) (base_url : str)
    (chapters_data : list DirectoryEntry) (chapter_url : option str)
  : result (list SectionRow) :=
  chapter_name <- label_of chapters_data chapter_url ;;
  acts_data <- _get_pages web (format_path chapter_url) base_url ;;
  for_each (map href acts_data)
           (act_rows web base_url acts_data chapter_name chapter_url).

(** The three nested loops that fill [df_index]. *)
Definition crawl (web : site) (base_url root_path : str) : result (list SectionRow) :=
  chapters_data <- _get_pages web root_path base_url ;;
  for_each (map href chapters_data) (chapter_rows web base_url chapters_data).

(** [build_ilcs_index].  Assigning the three classification columns from
    a table built of no row raises [ValueError] (the table has no column
    then, where three are required). *)
Definition build_ilcs_index (web : site) (base_url root_path : str)
  : result (list IndexRecord) :=
  df_index <- crawl web base_url root_path ;;
  match df_index with
  | [] => Raise ValueError
  | _ => Ok (map classify_row df_index)
  end.

(** ** Act pages *)

(** The pattern "^\((.*?)\)". *)
Definition ilcs_code_pattern : Re.re :=
  Re.Seq Re.Bol (Re.Seq (Re.chr "(") (Re.Seq (Re.Group 1 (Re.Star false Re.dot)) (Re.chr ")"))).

(** The pattern "\((.*?)\)\s*\((.*?)\)". *)
Definition act_title_pattern : Re.re :=
  Re.Seq (Re.chr "(") (Re.Seq (Re.Group 1 (Re.Star false Re.dot)) (Re.Seq (Re.chr ")")
    (Re.Seq (Re.Star true Re.space)
      (Re.Seq (Re.chr "(") (Re.Seq (Re.Group 2 (Re.Star false Re.dot)) (Re.chr ")")))))).

(** The patterns made of a label, [\s*] and one group that holds a greedy
    star of the dot; with [re.DOTALL] the dot matches the line feed too. *)
Definition field_pattern (label : str) (dotall : bool) : Re.re :=
  Re.Seq (Re.lit label) (Re.Seq (Re.Star true Re.space)
    (Re.Group 1 (Re.Star true (if dotall then Re.dotall else Re.dot)))).

(** The dictionary [data]: the keys in the order they are set. *)
Definition ActData := list (str * option str).

Definition title_description_of (full_text : str) : option str :=
  match Re.search (field_pattern "Title:" true) full_text with
  | Some mt =>
      let title_text := PyStr.strip (fst (PyStr.split1 "Cite:" (Re.group 1 mt))) in
      Some (PyStr.join " " (PyStr.words title_text))
  | None => None
  end.

Definition line_field_of (label : str) (full_text : str) : option str :=
  option_map (fun mt => PyStr.strip (Re.group 1 mt))
             (Re.search (field_pattern label false) full_text).

(** [parse_act_page] on the parsed page: the dictionary of the one row of
    the table it returns. *)
Definition parse_act_document (soup : Bs4.node) : ActData :=
  match Bs4.find_attr "div" "align" "justify" soup with
  | Some div =>
      let full_text := Bs4.get_text [PyStr.LF] true div in
      [ ("ilcs_code" : str,
          option_map (Re.group 1) (Re.search ilcs_code_pattern full_text));
        ("ilcs_act_title" : str,
          option_map (Re.group 2) (Re.search act_title_pattern full_text));
        ("title_description" : str, title_description_of full_text);
        ("cite" : str, line_field_of "Cite:" full_text);
        ("source" : str, line_field_of "Source:" full_text);
        ("short_title" : str, line_field_of "Short title:" full_text) ]
  | None => []
  end.

Definition parse_act_page (web : site) (url_path base_url : str) : result ActData :=
  response <- _request_util web (base_url ++ url_path) ;;
  match response with
  | None => Raise AttributeError
  | Some soup => Ok (parse_act_document soup)
  end.

(** A cell of the row in a table that has the column [k]: the value set
    for the key, and null ([None]) where the row has no such key, as
    [pd.concat] fills it in [build_acts_text_table]. *)
Fixpoint cell (k : str) (data : ActData) : option str :=
  match data with
  | [] => None
  | (k', v) :: data' => if PyStr.eqb k' k then v else cell k data'
  end.

(** ** Statute pages *)

Definition isdecimal (c : ascii) : bool :=
  let n := nat_of_ascii c in ((48 <=? n) && (n <=? 57))%nat.

(** [\w] on a code point below 256: the letters, the digits and the
    other numeric characters of Latin-1, and the underscore. *)
Definition isword (c : ascii) : bool :=
  let n := nat_of_ascii c in
  (((48 <=? n) && (n <=? 57)) || ((65 <=? n) && (n <=? 90)) || (n =? 95)
   || ((97 <=? n) && (n <=? 122)) || (n =? 170) || (n =? 178) || (n =? 179)
   || (n =? 181) || (n =? 185) || (n =? 186) || ((188 <=? n) && (n <=? 190))
   || ((192 <=? n) && (n <=? 214)) || ((216 <=? n) && (n <=? 246))
   || ((248 <=? n) && (n <=? 255)))%nat.

(** The pattern "\d+\s+ILCS\s+\d+/\d+[\w\-.]*" *)
Definition citation_pattern : Re.re :=
  Re.Seq (Re.plus (Re.Chr isdecimal)) (Re.Seq (Re.plus Re.space) (Re.Seq (Re.lit "ILCS")
    (Re.Seq (Re.plus Re.space) (Re.Seq (Re.plus (Re.Chr isdecimal)) (Re.Seq (Re.chr "/")
      (Re.Seq (Re.plus (Re.Chr isdecimal))
        (Re.Star true (Re.Chr (fun c => isword c || Ascii.eqb c "-" || Ascii.eqb c "."))))))))).

(** The same between optional parentheses. *)
Definition citation_node_pattern : Re.re :=
  Re.Seq (Re.opt (Re.chr "(")) (Re.Seq citation_pattern (Re.opt (Re.chr ")"))).

Definition ilcs_code_of (soup : Bs4.node) : option str :=
  match Bs4.find_string citation_node_pattern soup with
  | Some ilcs_code_match =>
      match Bs4.text_of ilcs_code_match with
      | [] => None
      | t => option_map Re.group0 (Re.search citation_pattern t)
      end
  | None => None
  end.

Definition amendment_marker : str := "Text of Section after amendment".

(** The flag and the text the lines are taken from. *)
Definition after_amendment (all_text : str) : bool * str :=
  if PyStr.contains amendment_marker all_text then
    match snd (PyStr.split1 amendment_marker all_text) with
    | Some rest => (true, rest)
    | None => (true, all_text)
    end
  else (false, all_text).

(** The run of string nodes met first in [previous_siblings], put back
    in document order before [acc]. *)
Fixpoint leading_whitespace (siblings : list Bs4.node) (acc : str) : str :=
  match siblings with
  | Bs4.Str _ t :: rest => leading_whitespace rest (t ++ acc)
  | _ => acc
  end.

Definition indent_spaces (siblings : list Bs4.node) : nat :=
  PyStr.count_chr PyStr.SPACE
    (PyStr.replace_chr PyStr.NBSP PyStr.SPACE (leading_whitespace siblings [])).

(** What is appended to [statute_text_lines] for a body line. *)
Definition indented (soup : Bs4.node) (line : str) : str :=
  match Bs4.find_string (Re.escape line) soup with
  | Some original_element =>
      match Bs4.text_of original_element with
      | [] => line
      | _ =>
          repeat PyStr.SPACE
            (indent_spaces (Bs4.parent_previous_siblings original_element)) ++ line
      end
  | None => line
  end.

(** The variables of the loop over the lines. *)
Record scan : Type :=
  { section_number : option str;
    source : option str;
    found_section : bool;
    found_statute_text : bool;
    statute_text_lines : list str }.

Definition scan_init : scan :=
  {| section_number := None; source := None; found_section := false;
     found_statute_text := false; statute_text_lines := [] |}.

(** What one turn of the loop does with a line that is not empty. *)
Definition process_line (soup : Bs4.node) (st : scan) (line : str) : scan :=
  if PyStr.startswith "Sec." line && negb (found_section st) then
    let parts := PyStr.split1 "." line in
    {| section_number :=
         Some (match snd parts with
               | Some rest => PyStr.strip rest
               | None => line
               end);
       source := source st;
       found_section := true;
       found_statute_text := true;
       statute_text_lines := statute_text_lines st |}
  else if PyStr.startswith "(Source:" line then
    {| section_number := section_number st;
       source := Some line;
       found_section := found_section st;
       found_statute_text := false;
       statute_text_lines := statute_text_lines st |}
  else if found_statute_text st then
    {| section_number := section_number st;
       source := source st;
       found_section := found_section st;
       found_statute_text := true;
       statute_text_lines := statute_text_lines st ++ [indented soup line] |}
  else st.

(** One turn of the loop: the line is stripped, and skipped when nothing
    is left of it. *)
Definition scan_line (soup : Bs4.node) (st : scan) (raw : str) : scan :=
  match PyStr.strip raw with
  | [] => st
  | line => process_line soup st line
  end.

Record StatuteRecord : Type :=
  { ilcs_code : option str;
    statute_section_number : option str;
    statute_text : str;
    statute_source : option str;
    amended_statute : bool }.

(** The flattened text of the body; [soup.body] is [None] when the page
    has no [<body>], and [get_text] on it raises [AttributeError]. *)
Definition body_text (soup : Bs4.node) : result str :=
  match Bs4.find "body" soup with
  | Some body => Ok (Bs4.get_text [PyStr.LF] true body)
  | None => Raise AttributeError
  end.

(** [parse_statute_page] on the parsed page: the one row it returns. *)
Definition parse_statute_document (soup : Bs4.node) : result StatuteRecord :=
  let code := ilcs_code_of soup in
  all_text <- body_text soup ;;
  let '(amended, all_text) := after_amendment all_text in
  let lines := PyStr.split_chr PyStr.LF all_text in
  let st := fold_left (scan_line soup) lines scan_init in
  Ok {| ilcs_code := code;
        statute_section_number := section_number st;
        statute_text := PyStr.strip (PyStr.join [PyStr.LF] (statute_text_lines st));
        statute_source := source st;
        amended_statute := amended |}.

Definition parse_statute_page (web : site) (url_path base_url : str)
  : result StatuteRecord :=
  response <- _request_util web (base_url ++ url_path) ;;
  match response with
  | None => Raise AttributeError
  | Some soup => parse_statute_document soup
  end.

(** ** Pages and sites for the examples *)

Definition text (s : str) : Bs4.node := Bs4.Str Bs4.NavigableString s.

Definition anchor (label href : str) : Bs4.node :=
  Bs4.Tag "a" [("href" : str, href)] [text label].

(** A directory listing as the site serves it: the parent-directory
    link first, then the entries, in one [<pre>] block. *)
Definition listing (links : list Bs4.node) : Bs4.node :=
  Bs4.BeautifulSoup
    [Bs4.Tag "html" []
       [Bs4.Tag "body" []
          [Bs4.Tag "pre" [] (anchor "[To Parent Directory]" "/ftp/" :: links)]]].

Definition url_is (url : str) (expected : str) : bool := PyStr.eqb url expected.

(** One chapter, one act, four files. *)
Definition sample_site : site := fun url =>
  if url_is url "https://ilga.gov/ftp/ILCS/" then
    Ok (Some (listing [anchor "aReadMe" "/ftp/ILCS/aReadMe/";
                       anchor "Ch 0005" "/ftp/ILCS/Ch%200005/"]))
  else if url_is url "https://ilga.gov/ftp/ILCS/Ch%200005/" then
    Ok (Some (listing [anchor "Act 0005" "/ftp/ILCS/Ch%200005/Act%200005/"]))
  else if url_is url "https://ilga.gov/ftp/ILCS/Ch%200005/Act%200005/" then
    Ok (Some (listing
      [anchor "000500050F.html" "/ftp/ILCS/Ch%200005/Act%200005/000500050F.html";
       anchor "000500050HArt 1.html" "/ftp/ILCS/Ch%200005/Act%200005/000500050HArt%201.html";
       anchor "000500050K1.html" "/ftp/ILCS/Ch%200005/Act%200005/000500050K1.html";
       anchor "notes.txt" "/ftp/ILCS/Ch%200005/Act%200005/notes.txt"]))
  else Ok None.

(** Two chapters; the listing of the first one times out. *)
Definition timeout_site : site := fun url =>
  if url_is url "https://ilga.gov/ftp/ILCS/" then
    Ok (Some (listing [anchor "Ch 0005" "/ftp/ILCS/Ch%200005/";
                       anchor "Ch 0010" "/ftp/ILCS/Ch%200010/"]))
  else if url_is url "https://ilga.gov/ftp/ILCS/Ch%200005/" then Ok None
  else if url_is url "https://ilga.gov/ftp/ILCS/Ch%200010/" then
    Ok (Some (listing [anchor "Act 0005" "/ftp/ILCS/Ch%200010/Act%200005/"]))
  else if url_is url "https://ilga.gov/ftp/ILCS/Ch%200010/Act%200005/" then
    Ok (Some (listing
      [anchor "001000050K1.html" "/ftp/ILCS/Ch%200010/Act%200005/001000050K1.html"]))
  else Ok None.

(** The act of the second chapter is an empty directory. *)
Definition empty_act_site : site := fun url =>
  if url_is url "https://ilga.gov/ftp/ILCS/" then
    Ok (Some (listing [anchor "Ch 0005" "/ftp/ILCS/Ch%200005/";
                       anchor "Ch 0010" "/ftp/ILCS/Ch%200010/"]))
  else if url_is url "https://ilga.gov/ftp/ILCS/Ch%200005/" then
    Ok (Some (listing [anchor "Act 0005" "/ftp/ILCS/Ch%200005/Act%200005/"]))
  else if url_is url "https://ilga.gov/ftp/ILCS/Ch%200005/Act%200005/" then
    Ok (Some (listing
      [anchor "000500050K1.html" "/ftp/ILCS/Ch%200005/Act%200005/000500050K1.html"]))
  else if url_is url "https://ilga.gov/ftp/ILCS/Ch%200010/" then
    Ok (Some (listing [anchor "Act 0005" "/ftp/ILCS/Ch%200010/Act%200005/"]))
  else if url_is url "https://ilga.gov/ftp/ILCS/Ch%200010/Act%200005/" then
    Ok (Some (listing []))
  else Ok None.

(** ** Notions the statements use *)

(** The listings the crawl asks for: the root, the chapters the root
    lists, the acts a chapter lists. *)
Inductive visited (web : site) (base_url root_path : str) : str -> Prop :=
| visit_root : visited web base_url root_path root_path
| visit_chapter (chapters : list DirectoryEntry) (ch : DirectoryEntry) :
    _get_pages web root_path base_url = Ok chapters ->
    In ch chapters ->
    visited web base_url root_path (format_path (href ch))
| visit_act (chapters acts : list DirectoryEntry) (ch a : DirectoryEntry) :
    _get_pages web root_path base_url = Ok chapters ->
    In ch chapters ->
    _get_pages web (format_path (href ch)) base_url = Ok acts ->
    In a acts ->
    visited web base_url root_path (format_path (href a)).

(** A listing page without an entry: no [<pre>] block, or no anchor in
    it but parent-directory links. *)
Definition no_surviving_links (soup : Bs4.node) : Prop :=
  match Bs4.find "pre" soup with
  | None => True
  | Some pre_tag =>
      forall link, In link (Bs4.find_all "a" pre_tag) ->
                   Bs4.get_text [] false link = "[To Parent Directory]"
  end.

(** The index of the sample site, and its record of the file [notes.txt]. *)
Definition sample_index : list IndexRecord :=
  Eval vm_compute in
    match build_ilcs_index sample_site "https://ilga.gov" "/ftp/ILCS/" with
    | Ok records => records
    | Raise _ => []
    end.

Definition notes_record : IndexRecord :=
  classify_row
    {| row_chapter_name := "Ch 0005";
       row_chapter_url := "/ftp/ILCS/Ch%200005/";
       row_act_name := "Act 0005";
       row_act_url := "/ftp/ILCS/Ch%200005/Act%200005/";
       row_section_file := "notes.txt";
       row_section_url := Some ("/ftp/ILCS/Ch%200005/Act%200005/notes.txt" : str) |}.


(** An act page: the justified block holds the citation, the title and
    the cite, and neither a source nor a short title. *)
Definition sample_act_page : Bs4.node :=
  Bs4.BeautifulSoup
    [Bs4.Tag "html" []
       [Bs4.Tag "body" []
          [Bs4.Tag "div" [("align" : str, "justify" : str)]
             [Bs4.Tag "b" [] [text "(35 ILCS 200/) (from Ch. 120, par. 1-1)"];
              Bs4.Tag "br" [] [];
              text " Title:  An Act concerning
   revenue. ";
              Bs4.Tag "br" [] [];
              text "Cite: 35 ILCS 200/1-1 et seq."]]]].

(** ** The statute loop, taken apart *)

(** The body lines the loop keeps, before they are indented: the state
    machine of the loop without the record it fills.  [fs] and [ft] are
    [found_section] and [found_statute_text]. *)
Fixpoint body_lines (fs ft : bool) (raws : list str) : list str :=
  match raws with
  | [] => []
  | raw :: rest =>
      match PyStr.strip raw with
      | [] => body_lines fs ft rest
      | line =>
          if PyStr.startswith "Sec." line && negb fs then body_lines true true rest
          else if PyStr.startswith "(Source:" line then body_lines fs false rest
          else if ft then line :: body_lines fs ft rest
          else body_lines fs ft rest
      end
  end.

Definition nonempty (s : str) : bool :=
  match s with [] => false | _ :: _ => true end.

(** The lines of a text, stripped, the empty ones left out. *)
Definition clean_lines (all_text : str) : list str :=
  filter nonempty (map PyStr.strip (PyStr.split_chr PyStr.LF all_text)).

(** What the section line gives as the section number. *)
Definition section_number_of (line : str) : str :=
  match snd (PyStr.split1 "." line) with
  | Some rest => PyStr.strip rest
  | None => line
  end.

(** The run of string nodes met first in a list of preceding siblings,
    concatenated in document order. *)
Fixpoint string_run (siblings : list Bs4.node) : list str :=
  match siblings with
  | Bs4.Str _ t :: rest => string_run rest ++ [t]
  | _ => []
  end.

(** The reading of the statement of the indentation: the siblings walked
    are those of the matched string node itself. *)
Definition indented_by_own_siblings (soup : Bs4.node) (line : str) : str :=
  match Bs4.find_string (Re.escape line) soup with
  | Some original_element =>
      repeat PyStr.SPACE (indent_spaces (Bs4.previous_siblings original_element)) ++ line
  | None => line
  end.

(** ** Statute pages for the examples *)

Definition paragraph (s : str) : Bs4.node := Bs4.Tag "p" [] [text s].

Definition page (body : list Bs4.node) : Bs4.node :=
  Bs4.BeautifulSoup [Bs4.Tag "html" [] [Bs4.Tag "body" [] body]].

(** The second body line follows two non-breaking spaces, which are
    siblings of its paragraph, not of its text. *)
Definition indented_page : Bs4.node :=
  page [ paragraph "(5 ILCS 5/1)";
         paragraph "Sec. 1. Short title.";
         paragraph "This Act may be cited as the Example Act.";
         text [PyStr.NBSP; PyStr.NBSP];
         paragraph "(a) It applies to examples.";
         paragraph "(Source: P.A. 90-655, eff. 7-30-98.)" ].

(** Here the first body line is the one that follows them. *)
Definition first_line_page : Bs4.node :=
  page [ paragraph "Sec. 1. Short title.";
         text [PyStr.NBSP; PyStr.NBSP];
         paragraph "This Act may be cited as the Example Act.";
         paragraph "(Source: P.A. 90-655, eff. 7-30-98.)" ].

(** A second source line follows the first. *)
Definition two_sources_page : Bs4.node :=
  page [ paragraph "Sec. 1. Short title.";
         paragraph "This Act may be cited as the Example Act.";
         paragraph "(Source: P.A. 90-655, eff. 7-30-98.)";
         paragraph "(Source: Laws 1961, p. 1983.)" ].

(** An amended section: the text before the amendment, with an indented
    line, then the marker and the text after it, where the same line is
    not indented. *)
Definition text_after_marker : list Bs4.node :=
  [ paragraph "Sec. 1. Short title.";
    paragraph "This Act may be cited as the Example Act.";
    paragraph "(a) It applies to examples.";
    paragraph "(Source: P.A. 99-1, eff. 1-1-16.)" ].

Definition amended_page : Bs4.node :=
  page ([ paragraph "(Text of Section before amendment by P.A. 99-1)";
          paragraph "Sec. 1. Short title.";
          paragraph "This Act may be cited as the Old Act.";
          text [PyStr.NBSP; PyStr.NBSP; PyStr.NBSP; PyStr.NBSP];
          paragraph "(a) It applies to examples.";
          paragraph "(Source: P.A. 90-655, eff. 7-30-98.)";
          paragraph "(Text of Section after amendment by P.A. 99-1)" ]
        ++ text_after_marker).

Definition after_marker_page : Bs4.node := page text_after_marker.

(** Induction on the tree: a tag has the property when its children do. *)
Fixpoint node_induction (P : Bs4.node -> Prop)
    (Hstr : forall cls t, P (Bs4.Str cls t))
    (Htag : forall name attrs cs, Forall P cs -> P (Bs4.Tag name attrs cs))
    (n : Bs4.node) {struct n} : P n :=
  match n with
  | Bs4.Str cls t => Hstr cls t
  | Bs4.Tag name attrs cs =>
      Htag name attrs cs
        ((fix children (l : list Bs4.node) : Forall P l :=
            match l with
            | [] => Forall_nil P
            | c :: l' => Forall_cons c (node_induction (P := P) Hstr Htag c) (children l')
            end) cs)
  end.

(** ** The markers *)

(** The text starts with [w] and one more character, not a line feed. *)
Definition dot_after (w s : str) : bool :=
  PyStr.startswith w s &&
  match skipn (length w) s with
  | x :: _ => negb (Ascii.eqb x PyStr.LF)
  | [] => false
  end.

(** The length of the marker the pattern matches at the head of [s]: the
    alternatives in their order. *)
Definition marker_len (s : str) : option nat :=
  if PyStr.startswith "A" s then Some 1
  else if PyStr.startswith "F" s then Some 1
  else if PyStr.startswith "K" s then Some 1
  else if dot_after "HArt" s then Some 5
  else if dot_after "HTit" s then Some 5
  else if dot_after "HPt" s then Some 4
  else if dot_after "HDiv" s then Some 5
  else if dot_after "Hprec" s then Some 6
  else if dot_after "HCh" s then Some 4
  else None.

(** The marker the search returns: the one matched at the leftmost
    position that has a match, nothing when no position has one. *)
Fixpoint first_marker (s : str) : str :=
  match marker_len s with
  | Some n => firstn n s
  | None =>
      match s with
      | [] => []
      | _ :: s' => first_marker s'
      end
  end.

(** The literals the statement lists as markers. *)
Definition marker_literals : list str :=
  ["A" : str; "F" : str; "K" : str; "HArt." : str; "HTit." : str; "HPt." : str;
   "HDiv." : str; "Hprec." : str; "HCh." : str].

(** The prefixes the dot of the pattern follows. *)
Definition dotted_prefixes : list str :=
  ["HArt" : str; "HTit" : str; "HPt" : str; "HDiv" : str; "Hprec" : str; "HCh" : str].

(** The shape of what the pattern matches at the head of a text. *)
Definition marker_shape (t : str) : Prop :=
  In t ["A" : str; "F" : str; "K" : str] \/
  exists p x, In p dotted_prefixes /\ x <> PyStr.LF /\ t = p ++ [x].

(** ** The tables of texts

    [build_acts_text_table] and [build_statutes_text_table] are one
    function written twice.  The table a parse function returns is a list
    of rows of any type [R]; it has no column [section_url] or
    [section_file] of its own, as the tables of the two parse functions
    have none.  What the function prints for a page that fails is returned
    beside the table. *)

(** A row of the table returned: the parsed row, the URL it was parsed
    from and the file name the merge adds, null when no record of the index
    has the URL. *)
Record TextRow (R : Type) : Type :=
  { parsed : R;
    text_section_url : option str;
    text_section_file : option str }.

(** The keys of a merge are equal as values are, two nulls too. *)
Definition eqb_key (a b : option str) : bool :=
  match a, b with
  | None, None => true
  | Some x, Some y => PyStr.eqb x y
  | _, _ => false
  end.

(** One turn of the loop over the URLs: the rows parsed are added to the
    table with the URL in [section_url]; an exception is caught and
    printed with the URL. *)
Definition parse_url (R : Type) (parse_fn : option str -> result (list R))
    (acc : list (R * option str) * list (option str * exn)) (url : option str)
  : list (R * option str) * list (option str * exn) :=
  match parse_fn url with
  | Ok df_parsed => (fst acc ++ map (fun row => (row, url)) df_parsed, snd acc)
  | Raise e => (fst acc, snd acc ++ [(url, e)])
  end.

(** [pd.merge(left, df_urls[['section_url', 'section_file']], how='left',
    on='section_url')]: every row of [left], in its order, once for each
    record of the index that has its URL, and once with a null file when
    none has. *)
Definition merge_left (R : Type) (left : list (R * option str))
    (df_urls : list IndexRecord) : list (TextRow R) :=
  flat_map (fun row =>
    match filter (fun r => eqb_key (section_url r) (snd row)) df_urls with
    | [] => [ {| parsed := fst row; text_section_url := snd row;
                 text_section_file := None |} ]
    | matches =>
        map (fun r => {| parsed := fst row; text_section_url := snd row;
                         text_section_file := Some (section_file r) |}) matches
    end) left.

Definition build_text_table (R : Type) (df_urls : list IndexRecord)
    (parse_fn : option str -> result (list R)) (label : str)
  : list (TextRow R) * list (option str * exn) :=
  let df := filter (fun r => PyStr.eqb (ilcs_index_type_label r) label) df_urls in
  let acc := fold_left (parse_url parse_fn) (map section_url df) ([], []) in
  (merge_left (fst acc) df_urls, snd acc).

Definition build_acts_text_table (R : Type) (df_urls : list IndexRecord)
    (parse_fn : option str -> result (list R)) (act_label : str)
  : list (TextRow R) * list (option str * exn) :=
  build_text_table df_urls parse_fn act_label.

Definition build_statutes_text_table (R : Type) (df_urls : list IndexRecord)
    (parse_fn : option str -> result (list R)) (section_label : str)
  : list (TextRow R) * list (option str * exn) :=
  build_text_table df_urls parse_fn section_label.

(** The parse functions as the script passes them: the table of one row. *)
Definition act_parse_fn (web : site) (base_url : str) (url : option str)
  : result (list ActData) :=
  row <- parse_act_page web (format_path url) base_url ;; Ok [row].

Definition statute_parse_fn (web : site) (base_url : str) (url : option str)
  : result (list StatuteRecord) :=
  row <- parse_statute_page web (format_path url) base_url ;; Ok [row].

(** ** Notions the further statements use *)

(** The entry a link of a listing gives. *)
Definition entry_of (link : Bs4.node) : DirectoryEntry :=
  {| label := Bs4.get_text [] false link; href := Bs4.get link "href" |}.

(** The listing of a path, empty when [_get_pages] raises. *)
Definition listing_of (web : site) (base_url : str) (url : option str)
  : list DirectoryEntry :=
  match _get_pages web (format_path url) base_url with
  | Ok data => data
  | Raise _ => []
  end.

(** The label the crawl gives an entry: that of the first entry of the
    listing that has its href. *)
Definition name_in (data : list DirectoryEntry) (url : option str) : str :=
  match label_of data url with
  | Ok name => name
  | Raise _ => []
  end.

(** The longest prefix whose characters satisfy [p]. *)
Fixpoint take_while (p : ascii -> bool) (s : str) : str :=
  match s with
  | c :: s' => if p c then c :: take_while p s' else []
  | [] => []
  end.

Definition not_lf (c : ascii) : bool := negb (Ascii.eqb c PyStr.LF).

(** The offset of the leftmost match of the marker pattern. *)
Fixpoint marker_offset (s : str) : option nat :=
  match marker_len s with
  | Some _ => Some 0
  | None =>
      match s with
      | [] => None
      | _ :: s' => option_map S (marker_offset s')
      end
  end.


(** A character no marker starts with. *)
Definition no_marker_start (c : ascii) : bool :=
  negb (Ascii.eqb c "A" || Ascii.eqb c "F" || Ascii.eqb c "K" || Ascii.eqb c "H").

(** The entries [_get_pages] keeps. *)
Definition kept_entry (e : DirectoryEntry) : bool :=
  negb (PyStr.eqb (label e) "[To Parent Directory]")
  && negb (PyStr.eqb (label e) "aReadMe").

(** A character that counts in the indentation. *)
Definition indent_char (c : ascii) : bool :=
  Ascii.eqb c PyStr.SPACE || Ascii.eqb c PyStr.NBSP.


(** The row the crawl makes of a file: the chapter and the act by their
    URLs, their names by the listings they stand in. *)
Definition section_row (chapters acts : list DirectoryEntry)
    (chapter_url act_url : option str) (s : DirectoryEntry) : SectionRow :=
  {| row_chapter_name := name_in chapters chapter_url;
     row_chapter_url := format_path chapter_url;
     row_act_name := name_in acts act_url;
     row_act_url := format_path act_url;
     row_section_file := label s;
     row_section_url := href s |}.

(** The rows of every file listed, chapter by chapter and act by act, in
    the order of the listings. *)
Definition listed_rows (web : site) (base_url root_path : str) : list SectionRow :=
  let chapters := listing_of web base_url (Some root_path) in
  flat_map (fun chapter_url =>
    let acts := listing_of web base_url chapter_url in
    flat_map (fun act_url =>
      map (section_row chapters acts chapter_url act_url)
          (listing_of web base_url act_url))
      (map href acts))
    (map href chapters).

(** An anchor without [href]. *)
Definition bare_anchor (label : str) : Bs4.node := Bs4.Tag "a" [] [text label].

(** The second chapter of the root listing has no [href]. *)
Definition bare_anchor_site : site := fun url =>
  if url_is url "https://ilga.gov/ftp/ILCS/" then
    Ok (Some (listing [anchor "Ch 0005" "/ftp/ILCS/Ch%200005/";
                       bare_anchor "Ch 0010"]))
  else if url_is url "https://ilga.gov/ftp/ILCS/Ch%200005/" then
    Ok (Some (listing [anchor "Act 0005" "/ftp/ILCS/Ch%200005/Act%200005/"]))
  else if url_is url "https://ilga.gov/ftp/ILCS/Ch%200005/Act%200005/" then
    Ok (Some (listing
      [anchor "000500050K1.html" "/ftp/ILCS/Ch%200005/Act%200005/000500050K1.html"]))
  else Ok None.


(** The URLs the loop of a table of texts goes through: those of the
    records that have the label, in the order of the index. *)
Definition labelled_urls (df_urls : list IndexRecord) (label : str) : list (option str) :=
  map section_url
      (filter (fun r => PyStr.eqb (ilcs_index_type_label r) label) df_urls).

(** The rows a URL adds to the table before the merge, none when the parse
    function raises. *)
Definition rows_from (R : Type) (parse_fn : option str -> result (list R))
    (url : option str) : list (R * option str) :=
  match parse_fn url with
  | Ok df_parsed => map (fun row => (row, url)) df_parsed
  | Raise _ => []
  end.

(** What is printed for a URL. *)
Definition failure_from (R : Type) (parse_fn : option str -> result (list R))
    (url : option str) : list (option str * exn) :=
  match parse_fn url with
  | Ok _ => []
  | Raise e => [(url, e)]
  end.

(** The records of the index that have the URL. *)
Definition records_at (df_urls : list IndexRecord) (url : option str) : list IndexRecord :=
  filter (fun r => eqb_key (section_url r) url) df_urls.

(** The rows a record gives when no other record has its URL. *)
Definition rows_of_record (R : Type) (parse_fn : option str -> result (list R))
    (r : IndexRecord) : list (TextRow R) :=
  match parse_fn (section_url r) with
  | Ok df_parsed =>
      map (fun row => {| parsed := row; text_section_url := section_url r;
                         text_section_file := Some (section_file r) |}) df_parsed
  | Raise _ => []
  end.

(** The sample site with the pages of its act and of its section. *)
Definition corpus_site : site := fun url =>
  if url_is url "https://ilga.gov/ftp/ILCS/Ch%200005/Act%200005/000500050F.html" then
    Ok (Some sample_act_page)
  else if url_is url "https://ilga.gov/ftp/ILCS/Ch%200005/Act%200005/000500050K1.html" then
    Ok (Some indented_page)
  else sample_site url.

(** A record that repeats the section of the sample index. *)
Definition repeated_index : list IndexRecord :=
  sample_index ++ filter (fun r => PyStr.eqb (ilcs_index_type r) "K") sample_index.


(** What a dot of a pattern matches, with and without [re.DOTALL]. *)
Definition dot_class (dotall : bool) : ascii -> bool :=
  if dotall then fun _ => true else not_lf.

(** The text a field pattern captures when its label stands at [i]: the
    white space after the label is passed over, line feeds too, and the
    group runs to the end of the line, or of the text. *)
Definition captured_after (label full_text : str) (i : nat) (dotall : bool) : str :=
  take_while (dot_class dotall) (PyStr.lstrip (skipn (i + length label) full_text)).

(** The three fields of an act that are read to the end of a line. *)
Definition line_fields : list (str * str) :=
  [ ("cite" : str, "Cite:" : str);
    ("source" : str, "Source:" : str);
    ("short_title" : str, "Short title:" : str) ].

(** An act page whose labels are in tags of their own: the text of a
    field is on the line after its label. *)
Definition labelled_act_page : Bs4.node :=
  Bs4.BeautifulSoup
    [Bs4.Tag "html" []
       [Bs4.Tag "body" []
          [Bs4.Tag "div" [("align" : str, "justify" : str)]
             [Bs4.Tag "b" [] [text "(35 ILCS 200/) (from Ch. 120, par. 1-1)"];
              Bs4.Tag "b" [] [text "Title:"];
              text " An Act concerning
   revenue. ";
              Bs4.Tag "b" [] [text "Cite:"];
              text " 35 ILCS 200/1-1 et seq. ";
              Bs4.Tag "b" [] [text "Source:"];
              text " P.A. 88-455. "]]]].



(** A page with a body and no section line. *)
Definition no_section_page : Bs4.node :=
  page [ paragraph "(5 ILCS 5/1)";
         paragraph "This Act may be cited as the Example Act.";
         paragraph "(Source: P.A. 90-655, eff. 7-30-98.)" ].







(** The cell of the one row of [pd.DataFrame([data])] in the column [k],
    when the table has the column: a key set to [None] gives [Some None],
    a key that was never set gives [None], the table having a column for
    each key of [data] and no other. *)
Fixpoint column (k : str) (data : ActData) : option (option str) :=
  match data with
  | [] => None
  | (k', v) :: data' => if PyStr.eqb k' k then Some v else column k data'
  end.





(** * Facts about the string operations *)

Unset Implicit Arguments.

Lemma eqb_refl (a : str) : PyStr.eqb a a = true.
Proof.
  induction a as [|x a IH]; simpl; [reflexivity|].
  now rewrite Ascii.eqb_refl, IH.
Qed.

Lemma eqb_eq (a b : str) : PyStr.eqb a b = true <-> a = b.
Proof.
  split.
  - revert b. induction a as [|x a IH]; intros [|y b] H; simpl in H;
      try discriminate; [reflexivity|].
    apply andb_true_iff in H. destruct H as [Hx Hab].
    apply Ascii.eqb_eq in Hx. apply IH in Hab. now subst.
  - intros ->. apply eqb_refl.
Qed.

Lemma startswith_app (p s : str) : PyStr.startswith p (p ++ s) = true.
Proof.
  induction p as [|x p IH]; simpl; [reflexivity|].
  now rewrite Ascii.eqb_refl, IH.
Qed.

Lemma startswith_split (p s : str) :
  PyStr.startswith p s = true -> s = p ++ skipn (length p) s.
Proof.
  revert s. induction p as [|x p IH]; intros s H; [reflexivity|].
  destruct s as [|y s]; simpl in H; [discriminate|].
  apply andb_true_iff in H. destruct H as [Hx Hp].
  apply Ascii.eqb_eq in Hx. subst y. simpl. f_equal. now apply IH.
Qed.

Lemma startswith_length (p s : str) :
  PyStr.startswith p s = true -> length p <= length s.
Proof.
  intros H. rewrite (startswith_split _ _ H), length_app. lia.
Qed.

(** A prefix of the first part is a prefix of the whole. *)
Lemma startswith_app_l (p a b : str) :
  PyStr.startswith p a = true -> PyStr.startswith p (a ++ b) = true.
Proof.
  intros H. rewrite (startswith_split _ _ H), <- app_assoc. apply startswith_app.
Qed.

(** [index] gives an occurrence, and the first one. *)
Lemma index_occurs (sub s : str) (i : nat) :
  PyStr.index sub s = Some i ->
  PyStr.startswith sub (skipn i s) = true /\ i <= length s.
Proof.
  revert i. induction s as [|c s IH]; intros i H; simpl in H.
  - destruct (PyStr.startswith sub []) eqn:E; [|discriminate].
    injection H as <-. simpl. auto.
  - destruct (PyStr.startswith sub (c :: s)) eqn:E.
    + injection H as <-. simpl. split; [assumption|lia].
    + destruct (PyStr.index sub s) as [j|] eqn:Ej; [|discriminate].
      injection H as <-. simpl. destruct (IH j eq_refl). split; [assumption|lia].
Qed.

Lemma index_first (sub s : str) (i j : nat) :
  PyStr.index sub s = Some i -> j < i -> PyStr.startswith sub (skipn j s) = false.
Proof.
  revert i j. induction s as [|c s IH]; intros i j H Hj; simpl in H.
  - destruct (PyStr.startswith sub []); [injection H as <-; lia | discriminate].
  - destruct (PyStr.startswith sub (c :: s)) eqn:E.
    + injection H as <-. lia.
    + destruct (PyStr.index sub s) as [i'|] eqn:Ei; [|discriminate].
      injection H as <-. destruct j as [|j]; [exact E|].
      simpl. apply (IH i'); [reflexivity|lia].
Qed.

Lemma index_none (sub s : str) (j : nat) :
  PyStr.index sub s = None -> PyStr.startswith sub (skipn j s) = false.
Proof.
  revert j. induction s as [|c s IH]; intros j H; simpl in H.
  - destruct (PyStr.startswith sub []) eqn:E; [discriminate|].
    now destruct j.
  - destruct (PyStr.startswith sub (c :: s)) eqn:E; [discriminate|].
    destruct (PyStr.index sub s) eqn:Ei; [discriminate|].
    destruct j as [|j]; [exact E|]. simpl. now apply IH.
Qed.

Lemma index_split (sub s : str) (i : nat) :
  PyStr.index sub s = Some i ->
  s = firstn i s ++ sub ++ skipn (i + length sub) s.
Proof.
  intros H. destruct (index_occurs _ _ _ H) as [Hs _].
  apply startswith_split in Hs.
  rewrite <- (firstn_skipn i s) at 1. f_equal.
  rewrite Hs at 1. f_equal. rewrite skipn_skipn. f_equal. lia.
Qed.

(** An occurrence anywhere makes [contains] true. *)
Lemma contains_app (sub a b : str) :
  PyStr.contains sub (a ++ sub ++ b) = true.
Proof.
  unfold PyStr.contains.
  destruct (PyStr.index sub (a ++ sub ++ b)) eqn:E; [reflexivity|].
  pose proof (index_none _ _ (length a) E) as H.
  rewrite skipn_app, Nat.sub_diag, skipn_all in H. simpl in H.
  now rewrite startswith_app in H.
Qed.

Lemma slice_middle (a b c : str) (x y : Z) :
  x = Z.of_nat (length a) -> y = Z.of_nat (length a + length b) ->
  PyStr.slice (a ++ b ++ c) x y = b.
Proof.
  intros -> ->. unfold PyStr.slice, PyStr.bound.
  assert (Hx : (Z.of_nat (length a) <? 0)%Z = false) by (apply Z.ltb_ge; lia).
  assert (Hy : (Z.of_nat (length a + length b) <? 0)%Z = false) by (apply Z.ltb_ge; lia).
  rewrite Hx, Hy, !Nat2Z.id, !length_app.
  rewrite !Nat.min_l by lia.
  replace (length a + length b - length a) with (length b) by lia.
  rewrite skipn_app, Nat.sub_diag, skipn_all. simpl.
  rewrite firstn_app, Nat.sub_diag, firstn_all. simpl. apply app_nil_r.
Qed.

(** The extension occurs in [p ++ ".html"] at the end only, when [p] does
    not hold it: no proper suffix of ".html" is a prefix of it. *)
Lemma index_html_suffix (p : str) :
  PyStr.contains ".html" p = false ->
  PyStr.index ".html" (p ++ ".html") = Some (length p).
Proof.
  induction p as [|c p IH]; intros H; [reflexivity|].
  unfold PyStr.contains in H.
  change (PyStr.index ".html" (c :: p))
    with (if PyStr.startswith ".html" (c :: p) then Some 0
          else option_map S (PyStr.index ".html" p)) in H.
  destruct (PyStr.startswith ".html" (c :: p)) eqn:Es; [discriminate|].
  assert (Hp : PyStr.contains ".html" p = false).
  { unfold PyStr.contains. destruct (PyStr.index ".html" p); [discriminate|reflexivity]. }
  change (PyStr.index ".html" ((c :: p) ++ ".html"))
    with (if PyStr.startswith ".html" (c :: p ++ ".html") then Some 0
          else option_map S (PyStr.index ".html" (p ++ ".html"))).
  assert (Ea : PyStr.startswith ".html" (c :: p ++ ".html") = false).
  { clear IH H Hp.
    destruct p as [|p1 [|p2 [|p3 [|p4 p]]]]; cbn in Es |- *;
      try exact Es;
      repeat match goal with
             | |- context [Ascii.eqb ?a ?b] =>
                 destruct (Ascii.eqb_spec a b); try subst; cbn; try reflexivity; try discriminate
             end. }
  rewrite Ea, (IH Hp). reflexivity.
Qed.

(** * Facts about the matcher *)

Lemma m_lit (w : str) (pos : nat) (s : str) (c : Re.caps) (k : Re.cont) :
  Re.m (Re.lit w) pos s c k =
  if PyStr.startswith w s then k (pos + length w) (skipn (length w) s) c else None.
Proof.
  revert pos s. induction w as [|x w IH]; intros pos s; simpl.
  - now rewrite Nat.add_0_r.
  - destruct s as [|y s]; [reflexivity|].
    destruct (Ascii.eqb x y); simpl; [|reflexivity].
    rewrite IH. now rewrite Nat.add_succ_r.
Qed.

Lemma skipn_S_tl (A : Type) (n : nat) (l : list A) :
  skipn (S n) l = tl (skipn n l).
Proof.
  revert l. induction n as [|n IH]; intros [|y l]; try reflexivity.
  change (skipn (S (S n)) (y :: l)) with (skipn (S n) l).
  change (skipn (S n) (y :: l)) with (skipn n l). apply IH.
Qed.

Lemma m_lit_dot (w : str) (pos : nat) (s : str) (c : Re.caps) (k : Re.cont) :
  Re.m (Re.Seq (Re.lit w) Re.dot) pos s c k =
  if dot_after w s then k (pos + S (length w)) (skipn (S (length w)) s) c else None.
Proof.
  rewrite skipn_S_tl. cbn [Re.m]. rewrite m_lit. unfold dot_after.
  destruct (PyStr.startswith w s); [|reflexivity].
  rewrite Nat.add_succ_r. unfold Re.dot. cbn [Re.m andb].
  destruct (skipn (length w) s) as [|x s']; [reflexivity|].
  simpl. now destruct (Ascii.eqb x PyStr.LF).
Qed.

Lemma m_alt (a b : Re.re) (pos : nat) (s : str) (c : Re.caps) (k : Re.cont) :
  Re.m (Re.Alt a b) pos s c k =
  match Re.m a pos s c k with Some r => Some r | None => Re.m b pos s c k end.
Proof. reflexivity. Qed.

Lemma m_group (n : nat) (a : Re.re) (pos : nat) (s : str) (c : Re.caps) (k : Re.cont) :
  Re.m (Re.Group n a) pos s c k =
  Re.m a pos s c (fun pos' s' c' => k pos' s' ((n, firstn (pos' - pos) s) :: c')).
Proof. reflexivity. Qed.

Lemma match_at_letters (pos : nat) (s : str) :
  Re.match_at letters_pattern pos s =
  option_map (fun n => (pos + n, [(1, firstn n s)])) (marker_len s).
Proof.
  unfold Re.match_at, letters_pattern, marker_len.
  rewrite m_group. cbn [Re.alts]. rewrite !m_alt, !m_lit, !m_lit_dot.
  cbn [length list_ascii_of_string].
  repeat match goal with
         | |- context [if ?b then _ else _] =>
             destruct b; cbn [option_map];
             [ match goal with
               | |- context [pos + ?n - pos] =>
                   replace (pos + n - pos) with n by lia
               end; reflexivity | ]
         end.
  reflexivity.
Qed.

Lemma search_from_letters (whole : str) (pos : nat) (s : str) :
  skipn pos whole = s ->
  match Re.search_from letters_pattern whole pos s with
  | Some mt => Re.group0 mt
  | None => []
  end = first_marker s.
Proof.
  revert pos. induction s as [|x s IH]; intros pos Hs.
  - cbn [Re.search_from first_marker]. rewrite match_at_letters.
    destruct (marker_len []) as [n|]; cbn [option_map]; [|reflexivity].
    unfold Re.group0. cbn [Re.start Re.stop Re.subject]. rewrite Hs.
    f_equal. lia.
  - cbn [Re.search_from first_marker]. rewrite match_at_letters.
    destruct (marker_len (x :: s)) as [n|]; cbn [option_map].
    + unfold Re.group0. cbn [Re.start Re.stop Re.subject]. rewrite Hs.
      f_equal. lia.
    + apply IH. rewrite skipn_S_tl, Hs. reflexivity.
Qed.

Lemma parse_filestring_letters (s : str) :
  snd (fst (_parse_filestring s)) = first_marker (skipn 9 s).
Proof.
  unfold _parse_filestring. cbn [fst snd]. unfold Re.search.
  now apply search_from_letters.
Qed.

Lemma parse_filestring_number (s : str) :
  fst (fst (_parse_filestring s)) = firstn 9 s.
Proof. reflexivity. Qed.

Lemma first_marker_literal (marker rest : str) :
  In marker marker_literals -> first_marker (marker ++ rest) = marker.
Proof.
  intros H. unfold marker_literals in H. simpl in H.
  repeat (destruct H as [<-|H]; [reflexivity|]). contradiction.
Qed.

Lemma dot_after_split (w s : str) :
  dot_after w s = true ->
  exists x rest, x <> PyStr.LF /\ s = w ++ x :: rest.
Proof.
  unfold dot_after. intros H. apply andb_true_iff in H. destruct H as [Hw Hx].
  apply startswith_split in Hw.
  destruct (skipn (length w) s) as [|x rest]; [discriminate|].
  exists x, rest. split; [|exact Hw].
  intros ->. discriminate.
Qed.

Lemma marker_len_shape (s : str) (n : nat) :
  marker_len s = Some n -> marker_shape (firstn n s).
Proof.
  unfold marker_len.
  repeat match goal with
         | |- (if PyStr.startswith ?w s then _ else _) = _ -> _ =>
             let E := fresh "E" in
             destruct (PyStr.startswith w s) eqn:E;
             [ intros [= <-]; apply startswith_split in E; rewrite E;
               left; simpl; tauto | clear E ]
         | |- (if dot_after ?w s then _ else _) = _ -> _ =>
             let E := fresh "E" in
             destruct (dot_after w s) eqn:E;
             [ intros [= <-]; apply dot_after_split in E;
               destruct E as (x & rest & Hx & ->);
               right; exists w, x; simpl; tauto | clear E ]
         end.
  discriminate.
Qed.

Lemma first_marker_shape (s : str) :
  first_marker s = [] \/ marker_shape (first_marker s).
Proof.
  induction s as [|x s IH]; cbn [first_marker].
  - destruct (marker_len []) as [n|] eqn:E; [|now left].
    right. now apply marker_len_shape.
  - destruct (marker_len (x :: s)) as [n|] eqn:E; [|exact IH].
    right. now apply marker_len_shape.
Qed.

Lemma first_marker_dotted (p : str) (x : ascii) (rest : str) :
  In p dotted_prefixes -> x <> PyStr.LF ->
  first_marker (p ++ x :: rest) = p ++ [x].
Proof.
  intros H Hx. apply Ascii.eqb_neq in Hx.
  unfold dotted_prefixes in H. simpl in H.
  repeat (destruct H as [<-|H];
          [ cbn [list_ascii_of_string app first_marker];
            unfold marker_len, dot_after; simpl; rewrite Hx; reflexivity | ]).
  contradiction.
Qed.

Lemma index_prefix (p s : str) : PyStr.index p (p ++ s) = Some 0.
Proof.
  destruct (p ++ s) eqn:E; simpl; rewrite <- E, startswith_app; reflexivity.
Qed.

Lemma marker_literal_cons (marker : str) :
  In marker marker_literals -> exists x w, marker = x :: w.
Proof.
  intros H. unfold marker_literals in H. simpl in H.
  repeat (destruct H as [<-|H]; [eexists; eexists; reflexivity|]). contradiction.
Qed.

(** [_parse_filestring] with the search replaced by what it returns. *)
Lemma parse_filestring_unfold (s : str) :
  _parse_filestring s =
  let letters := first_marker (skipn 9 s) in
  let letters_pos :=
    match letters with
    | [] => (-1)%Z
    | _ => PyStr.find s letters 9
    end in
  (firstn 9 s, letters,
   if (letters_pos =? -1)%Z then []
   else PyStr.slice s (letters_pos + Z.of_nat (length letters)) (PyStr.find s ".html" 0)).
Proof.
  unfold _parse_filestring, Re.search.
  rewrite (search_from_letters (skipn 9 s) 0 (skipn 9 s) eq_refl). reflexivity.
Qed.

(** * The filename classifier *)

(** C1, as amended.  A filename made of a code of 9 characters, one of the
    marker literals, a residual and ".html" is parsed into exactly that
    code, marker and residual, provided ".html" does not occur before the
    final extension (the extension is searched from the start of the
    filename). *)
Theorem parse_filestring_wellformed (code marker residual : str) :
  length code = 9 ->
  In marker marker_literals ->
  PyStr.contains ".html" (code ++ marker ++ residual) = false ->
  _parse_filestring (code ++ marker ++ residual ++ ".html") = (code, marker, residual).
Proof.
  intros Hcode Hmarker Hhtml.
  rewrite parse_filestring_unfold. cbv zeta.
  assert (Hskip : skipn 9 (code ++ marker ++ residual ++ ".html")
                  = marker ++ residual ++ ".html").
  { rewrite skipn_app, Hcode, Nat.sub_diag, skipn_all2 by lia. reflexivity. }
  rewrite Hskip, (first_marker_literal _ _ Hmarker).
  assert (Hfirst : firstn 9 (code ++ marker ++ residual ++ ".html") = code).
  { rewrite firstn_app, Hcode, Nat.sub_diag, firstn_all2 by lia. apply app_nil_r. }
  rewrite Hfirst.
  assert (Hpos : PyStr.find (code ++ marker ++ residual ++ ".html") marker 9 = 9%Z).
  { unfold PyStr.find. rewrite Hskip, index_prefix.
    replace (length (code ++ marker ++ residual ++ ".html") <? 9)%nat with false.
    - reflexivity.
    - symmetry. apply Nat.ltb_ge. rewrite length_app. lia. }
  assert (Hend : PyStr.find (code ++ marker ++ residual ++ ".html") ".html" 0
                 = Z.of_nat (length (code ++ marker) + length residual)).
  { unfold PyStr.find. cbn [Nat.ltb Nat.leb skipn].
    replace (code ++ marker ++ residual ++ ".html")
      with ((code ++ marker ++ residual) ++ ".html")
      by (now rewrite <- !app_assoc).
    rewrite (index_html_suffix _ Hhtml). cbn [Nat.add]. f_equal.
    rewrite !length_app. lia. }
  destruct (marker_literal_cons _ Hmarker) as (x & w & Ew).
  rewrite Hend. rewrite Ew at 2. rewrite Hpos. cbn [Z.eqb].
  f_equal.
  replace (code ++ marker ++ residual ++ ".html")
    with ((code ++ marker) ++ residual ++ ".html") by (now rewrite <- app_assoc).
  apply slice_middle; [|reflexivity].
  rewrite length_app, Hcode, Ew. cbn [length]. lia.
Qed.

(** The filename of the statement: [K] is the marker, [50010] the residual. *)
Lemma parse_filestring_wellformed_witness :
  _parse_filestring "005000050K50010.html"
  = ("005000050" : str, "K" : str, "50010" : str).
Proof.
  apply (parse_filestring_wellformed "005000050" "K" "50010").
  - reflexivity.
  - simpl. tauto.
  - reflexivity.
Defined.

(** C1 fails as it is stated.  The marker [HArt.] ends in a dot, so a
    residual that begins with [html] puts ".html" before the extension:
    the residual holds no marker literal and no ".html", and yet the
    residual returned is empty. *)
Lemma parse_filestring_html_across_marker :
  length ("005000050" : str) = 9 /\
  In ("HArt." : str) marker_literals /\
  (forall w, In w marker_literals -> PyStr.contains w "html5" = false) /\
  PyStr.contains ".html" "html5" = false /\
  _parse_filestring ("005000050" ++ "HArt." ++ "html5" ++ ".html")
  = ("005000050" : str, "HArt." : str, [])
  /\ ("005000050" : str, "HArt." : str, [] : str)
     <> ("005000050" : str, "HArt." : str, "html5" : str).
Proof.
  repeat split; try reflexivity.
  - simpl. tauto.
  - intros w Hw. unfold marker_literals in Hw. simpl in Hw.
    repeat (destruct Hw as [<-|Hw]; [reflexivity|]). contradiction.
  - discriminate.
Qed.

Lemma slice_to_last (a b : str) (x : Z) :
  x = Z.of_nat (length a) ->
  PyStr.slice (a ++ b) x (-1) = removelast b.
Proof.
  intros ->. unfold PyStr.slice, PyStr.bound.
  assert (Hx : (Z.of_nat (length a) <? 0)%Z = false) by (apply Z.ltb_ge; lia).
  rewrite Hx. cbn [Z.ltb Z.compare]. rewrite Nat2Z.id, length_app.
  rewrite Nat.min_l by lia.
  rewrite skipn_app, Nat.sub_diag, skipn_all. cbn [app skipn].
  rewrite removelast_firstn_len. f_equal. lia.
Qed.

(** C6: without ".html" in the filename [find] returns [-1], and the
    slice that ends at [-1] is the text after the marker less its last
    character: it is not empty as soon as two characters follow the
    marker. *)
Theorem parse_filestring_without_extension (code marker rest : str) :
  length code = 9 ->
  In marker marker_literals ->
  PyStr.contains ".html" (code ++ marker ++ rest) = false ->
  PyStr.find (code ++ marker ++ rest) ".html" 0 = (-1)%Z /\
  _parse_filestring (code ++ marker ++ rest) = (code, marker, removelast rest).
Proof.
  intros Hcode Hmarker Hhtml.
  assert (Hend : PyStr.find (code ++ marker ++ rest) ".html" 0 = (-1)%Z).
  { unfold PyStr.find. cbn [Nat.ltb Nat.leb skipn].
    unfold PyStr.contains in Hhtml.
    now destruct (PyStr.index ".html" (code ++ marker ++ rest)). }
  split; [exact Hend|].
  rewrite parse_filestring_unfold. cbv zeta.
  assert (Hskip : skipn 9 (code ++ marker ++ rest) = marker ++ rest).
  { rewrite skipn_app, Hcode, Nat.sub_diag, skipn_all2 by lia. reflexivity. }
  rewrite Hskip, (first_marker_literal _ _ Hmarker).
  assert (Hfirst : firstn 9 (code ++ marker ++ rest) = code).
  { rewrite firstn_app, Hcode, Nat.sub_diag, firstn_all2 by lia. apply app_nil_r. }
  rewrite Hfirst.
  assert (Hpos : PyStr.find (code ++ marker ++ rest) marker 9 = 9%Z).
  { unfold PyStr.find. rewrite Hskip, index_prefix.
    replace (length (code ++ marker ++ rest) <? 9)%nat with false.
    - reflexivity.
    - symmetry. apply Nat.ltb_ge. rewrite length_app. lia. }
  destruct (marker_literal_cons _ Hmarker) as (x & w & Ew).
  rewrite Hend, Hpos. rewrite Ew at 2. cbn [Z.eqb].
  f_equal. rewrite app_assoc. apply slice_to_last.
  rewrite length_app, Hcode, Ew. cbn [length]. lia.
Qed.

(** A filename with the marker [K] and no extension: the residual
    returned is [5001]. *)
Lemma parse_filestring_without_extension_witness :
  PyStr.find "005000050K50010" ".html" 0 = (-1)%Z /\
  _parse_filestring "005000050K50010" = ("005000050" : str, "K" : str, "5001" : str).
Proof.
  apply (parse_filestring_without_extension "005000050" "K" "50010").
  - reflexivity.
  - simpl. tauto.
  - reflexivity.
Defined.

Lemma classify_row_fields (row : SectionRow) :
  section_file (classify_row row) = row_section_file row /\
  ilcs_index_number (classify_row row)
  = fst (fst (_parse_filestring (row_section_file row))) /\
  ilcs_index_type (classify_row row)
  = snd (fst (_parse_filestring (row_section_file row))) /\
  ilcs_index_type_label (classify_row row)
  = type_label (snd (fst (_parse_filestring (row_section_file row)))).
Proof.
  unfold classify_row.
  destruct (_parse_filestring (row_section_file row)) as [[number type] ext].
  repeat split.
Qed.

(** C7 fails as it is stated: the dot of [HArt.] is the dot of regular
    expressions, so the search returns [HArt] followed by a space, which is
    a key of the mapping, and the label [Article (HArtDiv)] is in the index
    of a site that lists such a file. *)
Lemma marker_search_returns_space_key :
  snd (fst (_parse_filestring "000500050HArt 1.html")) = ("HArt " : str) /\
  type_label "HArt " = ("Article (HArtDiv)" : str) /\
  exists records r,
    build_ilcs_index sample_site "https://ilga.gov" "/ftp/ILCS/" = Ok records /\
    In r records /\
    section_file r = ("000500050HArt 1.html" : str) /\
    ilcs_index_type_label r = ("Article (HArtDiv)" : str).
Proof.
  split; [reflexivity|]. split; [reflexivity|].
  eexists. eexists. split; [vm_compute; reflexivity|].
  split; [right; left; reflexivity|]. split; reflexivity.
Qed.

(** C7, as amended.  The marker the search returns is empty, or [A], [F]
    or [K], or one of [HArt], [HTit], [HPt], [HDiv], [Hprec], [HCh]
    followed by any one character but a line feed, and each of those is
    returned for some filename; so every key of the mapping is returned
    for some filename, the three keys that end in a space or a comma
    too, and a file so named has the label of the key in the index. *)
Theorem marker_search_range :
  (forall t : str,
     (exists s, snd (fst (_parse_filestring s)) = t) <-> (t = [] \/ marker_shape t)) /\
  (forall k : str,
     In k (map fst mapping) ->
     snd (fst (_parse_filestring ("000500050" ++ k ++ " 1.html"))) = k) /\
  (forall (k v : str) (row : SectionRow),
     In (k, v) mapping ->
     row_section_file row = "000500050" ++ k ++ " 1.html" ->
     ilcs_index_type (classify_row row) = k /\
     ilcs_index_type_label (classify_row row) = v).
Proof.
  split; [|split].
  - intros t. split.
    + intros [s <-]. rewrite parse_filestring_letters. apply first_marker_shape.
    + intros [-> | [Hin | (p & x & Hp & Hx & ->)]].
      * exists []. reflexivity.
      * exists ("000500050" ++ t). simpl in Hin.
        repeat (destruct Hin as [<-|Hin]; [reflexivity|]). contradiction.
      * exists ("000500050" ++ p ++ [x]).
        rewrite parse_filestring_letters.
        change (skipn 9 ("000500050" ++ p ++ [x])) with (p ++ [x]).
        now apply first_marker_dotted.
  - intros k Hk. simpl in Hk.
    repeat (destruct Hk as [<-|Hk]; [reflexivity|]). contradiction.
  - intros k v row Hkv Hfile.
    destruct (classify_row_fields row) as (_ & _ & Htype & Hlabel).
    rewrite Htype, Hlabel, Hfile. simpl in Hkv.
    repeat (destruct Hkv as [[= <- <-]|Hkv]; [split; reflexivity|]). contradiction.
Qed.

(** * The index *)

Lemma build_index_records (web : site) (base_url root_path : str)
    (records : list IndexRecord) :
  build_ilcs_index web base_url root_path = Ok records ->
  exists rows, crawl web base_url root_path = Ok rows /\ records = map classify_row rows.
Proof.
  unfold build_ilcs_index, bind.
  destruct (crawl web base_url root_path) as [rows|e]; [|discriminate].
  destruct rows as [|row rows]; [discriminate|].
  intros [= <-]. now exists (row :: rows).
Qed.

(** C5.  In every record of the index the number is the first 9
    characters of the file name (the whole name when it is shorter), and
    the label is [Unknown] when the marker is not a key of the mapping, as
    it is when the search found no marker: the marker is empty then. *)
Theorem index_record_invariant (web : site) (base_url root_path : str)
    (records : list IndexRecord) (r : IndexRecord) :
  build_ilcs_index web base_url root_path = Ok records ->
  In r records ->
  ilcs_index_number r = firstn 9 (section_file r) /\
  (length (section_file r) <= 9 -> ilcs_index_number r = section_file r) /\
  (Bs4.assoc (ilcs_index_type r) mapping = None ->
   ilcs_index_type_label r = ("Unknown" : str)) /\
  (Re.search letters_pattern (skipn 9 (section_file r)) = None ->
   ilcs_index_type r = [] /\ ilcs_index_type_label r = ("Unknown" : str)).
Proof.
  intros Hbuild Hin.
  destruct (build_index_records _ _ _ _ Hbuild) as (rows & _ & ->).
  apply in_map_iff in Hin. destruct Hin as (row & <- & _).
  destruct (classify_row_fields row) as (Hfile & Hnum & Htype & Hlabel).
  rewrite Hfile, Hnum, Htype, Hlabel, parse_filestring_number.
  split; [reflexivity|]. split; [|split].
  - intros Hlen. now apply firstn_all2.
  - unfold type_label. now intros ->.
  - unfold _parse_filestring. cbn [fst snd]. intros ->. split; reflexivity.
Qed.

(** The file [notes.txt] of the sample site: no longer than 9 characters
    and without a marker. *)
Lemma index_record_invariant_witness :
  build_ilcs_index sample_site "https://ilga.gov" "/ftp/ILCS/" = Ok sample_index /\
  In notes_record sample_index /\
  ilcs_index_number notes_record = ("notes.txt" : str) /\
  ilcs_index_type notes_record = [] /\
  ilcs_index_type_label notes_record = ("Unknown" : str).
Proof.
  assert (Hbuild : build_ilcs_index sample_site "https://ilga.gov" "/ftp/ILCS/"
                   = Ok sample_index) by (vm_compute; reflexivity).
  assert (Hin : In notes_record sample_index) by (do 3 right; left; reflexivity).
  destruct (index_record_invariant _ _ _ _ _ Hbuild Hin) as (_ & Hshort & _ & Hnone).
  split; [exact Hbuild|]. split; [exact Hin|]. split.
  - apply Hshort. vm_compute. lia.
  - apply Hnone. reflexivity.
Defined.

(** * Failing and empty listings *)

(** [_get_pages] raises on the [None] the fetch layer returns. *)
Lemma get_pages_no_result (web : site) (url_path base_url : str) :
  web (base_url ++ url_path) = Ok None ->
  _get_pages web url_path base_url = Raise AttributeError.
Proof. unfold _get_pages, _request_util, bind. now intros ->. Qed.


Lemma url_links_none (soup : Bs4.node) :
  no_surviving_links soup -> url_links soup = [].
Proof.
  unfold no_surviving_links, url_links.
  destruct (Bs4.find "pre" soup) as [pre_tag|]; [|reflexivity].
  induction (Bs4.find_all "a" pre_tag) as [|link links IH]; intros H; [reflexivity|].
  cbn [flat_map]. rewrite (H link (or_introl eq_refl)), eqb_refl. cbn [negb app].
  apply IH. intros l Hl. apply H. now right.
Qed.

Lemma get_pages_empty (web : site) (url_path base_url : str) (soup : Bs4.node) :
  web (base_url ++ url_path) = Ok (Some soup) ->
  no_surviving_links soup ->
  _get_pages web url_path base_url = Raise KeyError.
Proof.
  intros Hweb Hnone. unfold _get_pages, _request_util, bind.
  now rewrite Hweb, (url_links_none _ Hnone).
Qed.

Lemma for_each_raises (A B : Type) (l : list A) (body : A -> result (list B)) (a : A) :
  In a l -> (exists e, body a = Raise e) -> exists e, for_each l body = Raise e.
Proof.
  intros Hin Hraise. induction l as [|x l IH]; [contradiction|].
  cbn [for_each]. unfold bind at 1.
  destruct (body x) as [rows|e] eqn:Ex; [|now exists e].
  destruct Hin as [->|Hin].
  - destruct Hraise as [e He]. congruence.
  - destruct (IH Hin) as [e He]. exists e. unfold bind. now rewrite He.
Qed.

Lemma act_rows_raises (web : site) (base_url : str) (acts : list DirectoryEntry)
    (chapter_name : str) (chapter_url : option str) (a : DirectoryEntry) (e : exn) :
  _get_pages web (format_path (href a)) base_url = Raise e ->
  exists e', act_rows web base_url acts chapter_name chapter_url (href a) = Raise e'.
Proof.
  intros Hget. unfold act_rows, bind.
  destruct (label_of acts (href a)) as [name|e']; [|now exists e'].
  rewrite Hget. now exists e.
Qed.

Lemma chapter_rows_raises (web : site) (base_url : str)
    (chapters : list DirectoryEntry) (ch : DirectoryEntry) :
  (exists e, _get_pages web (format_path (href ch)) base_url = Raise e) \/
  (exists acts a e,
     _get_pages web (format_path (href ch)) base_url = Ok acts /\ In a acts /\
     _get_pages web (format_path (href a)) base_url = Raise e) ->
  exists e', chapter_rows web base_url chapters (href ch) = Raise e'.
Proof.
  intros H. unfold chapter_rows, bind.
  destruct (label_of chapters (href ch)) as [name|e']; [|now exists e'].
  destruct H as [[e He] | (acts & a & e & Hacts & Hin & He)].
  - rewrite He. now exists e.
  - rewrite Hacts. apply for_each_raises with (a := href a).
    + now apply in_map.
    + now apply act_rows_raises with (e := e).
Qed.

(** The crawl has no handler: an exception of a listing it asks for ends
    [build_ilcs_index]. *)
Lemma visited_raise_aborts (web : site) (base_url root_path url_path : str) (e : exn) :
  visited web base_url root_path url_path ->
  _get_pages web url_path base_url = Raise e ->
  exists e', build_ilcs_index web base_url root_path = Raise e'.
Proof.
  intros Hvisit Hget.
  assert (Hcrawl : exists e', crawl web base_url root_path = Raise e').
  { unfold crawl, bind.
    destruct Hvisit as [|chapters ch Hroot Hin|chapters acts ch a Hroot Hin Hacts Hina].
    - rewrite Hget. now exists e.
    - rewrite Hroot. apply for_each_raises with (a := href ch).
      + now apply in_map.
      + apply chapter_rows_raises. left. now exists e.
    - rewrite Hroot. apply for_each_raises with (a := href ch).
      + now apply in_map.
      + apply chapter_rows_raises. right. now exists acts, a, e. }
  destruct Hcrawl as [e' He]. exists e'. unfold build_ilcs_index, bind. now rewrite He.
Qed.

(** C8: when the fetch layer returns [None] for a listing the crawl asks
    for, [_get_pages] raises the [AttributeError] of [response.text], and
    [build_ilcs_index] raises: it returns no record, whatever the other
    branches hold. *)
Theorem build_index_aborts_on_no_result (web : site)
    (base_url root_path url_path : str) :
  visited web base_url root_path url_path ->
  web (base_url ++ url_path) = Ok None ->
  _get_pages web url_path base_url = Raise AttributeError /\
  exists e, build_ilcs_index web base_url root_path = Raise e.
Proof.
  intros Hvisit Hweb.
  pose proof (get_pages_no_result _ _ _ Hweb) as Hget.
  split; [exact Hget|]. exact (visited_raise_aborts _ _ _ _ _ Hvisit Hget).
Qed.

(** The listing of the first chapter times out; the second chapter has an
    act with a file, and no record of it is returned. *)
Lemma build_index_aborts_on_no_result_witness :
  (_get_pages timeout_site "/ftp/ILCS/Ch%200005/" "https://ilga.gov"
   = Raise AttributeError /\
   exists e, build_ilcs_index timeout_site "https://ilga.gov" "/ftp/ILCS/" = Raise e) /\
  (exists sections,
     _get_pages timeout_site "/ftp/ILCS/Ch%200010/Act%200005/" "https://ilga.gov"
     = Ok sections /\ sections <> []) /\
  build_ilcs_index timeout_site "https://ilga.gov" "/ftp/ILCS/" = Raise AttributeError.
Proof.
  split; [|split].
  - apply (build_index_aborts_on_no_result timeout_site "https://ilga.gov"
             "/ftp/ILCS/" "/ftp/ILCS/Ch%200005/").
    + apply (@visit_chapter timeout_site "https://ilga.gov" "/ftp/ILCS/"
               [ {| label := "Ch 0005"; href := Some ("/ftp/ILCS/Ch%200005/" : str) |};
                 {| label := "Ch 0010"; href := Some ("/ftp/ILCS/Ch%200010/" : str) |} ]
               {| label := "Ch 0005"; href := Some ("/ftp/ILCS/Ch%200005/" : str) |}).
      * vm_compute. reflexivity.
      * left. reflexivity.
    + reflexivity.
  - eexists. split; [vm_compute; reflexivity|discriminate].
  - vm_compute. reflexivity.
Defined.

(** C10.  A listing page without an entry makes [_get_pages] raise
    [KeyError], and when the crawl asks for such a listing (the root, a
    chapter or an act) [build_ilcs_index] raises too: it returns no
    index. *)
Theorem empty_listing_aborts (web : site) (base_url root_path url_path : str)
    (soup : Bs4.node) :
  visited web base_url root_path url_path ->
  web (base_url ++ url_path) = Ok (Some soup) ->
  no_surviving_links soup ->
  _get_pages web url_path base_url = Raise KeyError /\
  exists e, build_ilcs_index web base_url root_path = Raise e.
Proof.
  intros Hvisit Hweb Hnone.
  pose proof (get_pages_empty _ _ _ _ Hweb Hnone) as Hget.
  split; [exact Hget|]. exact (visited_raise_aborts _ _ _ _ _ Hvisit Hget).
Qed.

(** The empty directory of the second chapter's act. *)
Lemma empty_listing_aborts_witness :
  _get_pages empty_act_site "/ftp/ILCS/Ch%200010/Act%200005/" "https://ilga.gov"
  = Raise KeyError /\
  exists e, build_ilcs_index empty_act_site "https://ilga.gov" "/ftp/ILCS/" = Raise e.
Proof.
  apply (empty_listing_aborts empty_act_site "https://ilga.gov" "/ftp/ILCS/"
           "/ftp/ILCS/Ch%200010/Act%200005/" (listing [])).
  - apply (@visit_act empty_act_site "https://ilga.gov" "/ftp/ILCS/"
             [ {| label := "Ch 0005"; href := Some ("/ftp/ILCS/Ch%200005/" : str) |};
               {| label := "Ch 0010"; href := Some ("/ftp/ILCS/Ch%200010/" : str) |} ]
             [ {| label := "Act 0005";
                  href := Some ("/ftp/ILCS/Ch%200010/Act%200005/" : str) |} ]
             {| label := "Ch 0010"; href := Some ("/ftp/ILCS/Ch%200010/" : str) |}
             {| label := "Act 0005";
                href := Some ("/ftp/ILCS/Ch%200010/Act%200005/" : str) |}).
    + vm_compute. reflexivity.
    + right. left. reflexivity.
    + vm_compute. reflexivity.
    + left. reflexivity.
  - reflexivity.
  - intros link Hlink. vm_compute in Hlink.
    destruct Hlink as [<-|[]]. reflexivity.
Defined.

(** * Act pages *)

(** A star never fails when what follows it never fails. *)
Lemma star_loop_total (greedy : bool)
    (step : nat -> str -> Re.caps -> Re.cont -> option (nat * Re.caps))
    (k : Re.cont) (fuel pos : nat) (s : str) (c : Re.caps) :
  (forall pos' s' c', k pos' s' c' <> None) ->
  Re.star_loop greedy step k fuel pos s c <> None.
Proof.
  intros Hk. revert pos s c.
  induction fuel as [|fuel IH]; intros pos s c; cbn [Re.star_loop]; [apply Hk|].
  destruct greedy; unfold Re.orelse.
  - match goal with
    | |- match ?x with _ => _ end <> None => destruct x; [discriminate|apply Hk]
    end.
  - destruct (k pos s c) eqn:E; [discriminate|]. now apply Hk in E.
Qed.

Lemma m_star_total (greedy : bool) (a : Re.re) (pos : nat) (s : str) (c : Re.caps)
    (k : Re.cont) :
  (forall pos' s' c', k pos' s' c' <> None) ->
  Re.m (Re.Star greedy a) pos s c k <> None.
Proof. intros Hk. cbn [Re.m]. now apply star_loop_total. Qed.

Lemma match_at_field (label : str) (dotall : bool) (pos : nat) (s : str) :
  Re.match_at (field_pattern label dotall) pos s = None <->
  PyStr.startswith label s = false.
Proof.
  unfold Re.match_at, field_pattern.
  change (Re.m (Re.Seq (Re.lit label) ?b) pos s [] ?k)
    with (Re.m (Re.lit label) pos s [] (fun pos' s' c' => Re.m b pos' s' c' k)).
  rewrite m_lit. destruct (PyStr.startswith label s); [|tauto].
  split; [|discriminate]. intros H. exfalso. revert H.
  change (Re.m (Re.Seq (Re.Star true Re.space) ?b) ?p ?t [] ?k)
    with (Re.m (Re.Star true Re.space) p t [] (fun pos' s' c' => Re.m b pos' s' c' k)).
  apply m_star_total. intros pos' s' c'. rewrite m_group.
  apply m_star_total. discriminate.
Qed.











(** Where the row has the column, the table of acts has its value; where
    it has not, the table has a null. *)
Lemma cell_column (k : str) (data : ActData) :
  cell k data = match column k data with Some v => v | None => None end.
Proof.
  induction data as [|[k' v] data IH]; [reflexivity|].
  cbn [cell column]. now destruct (PyStr.eqb k' k).
Qed.



(** The sample act page: the code and the act title are the two
    parenthesised groups, the description is cut at the cite and its
    whitespace collapsed; the source and the short title are null. *)
Example parse_sample_act_page :
  parse_act_document sample_act_page =
  [ ("ilcs_code" : str, Some ("35 ILCS 200/" : str));
    ("ilcs_act_title" : str, Some ("from Ch. 120, par. 1-1" : str));
    ("title_description" : str, Some ("An Act concerning revenue." : str));
    ("cite" : str, Some ("35 ILCS 200/1-1 et seq." : str));
    ("source" : str, None);
    ("short_title" : str, None) ].
Proof. vm_compute. reflexivity. Qed.

(** * Facts about [strip] and [join] *)

Lemma lstrip_length (s : str) : length (PyStr.lstrip s) <= length s.
Proof.
  induction s as [|c s IH]; simpl; [lia|].
  destruct (PyStr.isspace c); simpl; lia.
Qed.

(** A text that [lstrip] leaves alone starts with a character that is no
    space, when it starts at all. *)
Lemma lstrip_fixed_head (c : ascii) (s : str) :
  PyStr.lstrip (c :: s) = c :: s -> PyStr.isspace c = false.
Proof.
  simpl. destruct (PyStr.isspace c); [|reflexivity].
  intros H. pose proof (lstrip_length s) as L. rewrite H in L. simpl in L. lia.
Qed.

Lemma lstrip_idempotent (s : str) : PyStr.lstrip (PyStr.lstrip s) = PyStr.lstrip s.
Proof.
  induction s as [|c s IH]; [reflexivity|].
  simpl. destruct (PyStr.isspace c) eqn:E; [exact IH|].
  simpl. now rewrite E.
Qed.

Lemma lstrip_app_fixed (a b : str) :
  a <> [] -> PyStr.lstrip a = a -> PyStr.lstrip (a ++ b) = a ++ b.
Proof.
  destruct a as [|c a]; [congruence|]. intros _ H.
  apply lstrip_fixed_head in H. simpl. now rewrite H.
Qed.

Lemma lstrip_spaces (n : nat) (s : str) :
  PyStr.lstrip (repeat PyStr.SPACE n ++ s) = PyStr.lstrip s.
Proof. induction n as [|n IH]; [reflexivity|exact IH]. Qed.

Lemma rstrip_idempotent (s : str) : PyStr.rstrip (PyStr.rstrip s) = PyStr.rstrip s.
Proof.
  induction s as [|c s IH]; [reflexivity|].
  cbn [PyStr.rstrip]. destruct (PyStr.rstrip s) as [|d t] eqn:E.
  - destruct (PyStr.isspace c) eqn:Ec; [reflexivity|].
    cbn [PyStr.rstrip]. now rewrite Ec.
  - change (PyStr.rstrip (c :: d :: t))
      with (match PyStr.rstrip (d :: t) with
            | [] => if PyStr.isspace c then [] else [c]
            | u => c :: u
            end).
    now rewrite IH.
Qed.

(** Nothing is stripped from the right of a text that ends in a text
    [rstrip] leaves alone. *)
Lemma rstrip_app_fixed (a b : str) :
  b <> [] -> PyStr.rstrip b = b -> PyStr.rstrip (a ++ b) = a ++ b.
Proof.
  intros Hb H. induction a as [|c a IH]; [exact H|].
  cbn [app PyStr.rstrip]. rewrite IH.
  destruct (a ++ b) eqn:E; [|reflexivity].
  apply app_eq_nil in E. tauto.
Qed.

Lemma rstrip_keeps_fixed_head (s : str) :
  PyStr.lstrip s = s -> PyStr.lstrip (PyStr.rstrip s) = PyStr.rstrip s.
Proof.
  destruct s as [|c s]; [reflexivity|]. intros H.
  apply lstrip_fixed_head in H. cbn [PyStr.rstrip].
  destruct (PyStr.rstrip s); rewrite ?H; simpl; now rewrite H.
Qed.

(** A stripped text is left alone by both strips. *)
Lemma strip_lstrip_fixed (s : str) : PyStr.lstrip (PyStr.strip s) = PyStr.strip s.
Proof. unfold PyStr.strip. apply rstrip_keeps_fixed_head, lstrip_idempotent. Qed.

Lemma strip_rstrip_fixed (s : str) : PyStr.rstrip (PyStr.strip s) = PyStr.strip s.
Proof. unfold PyStr.strip. apply rstrip_idempotent. Qed.

Lemma join_cons (sep x : str) (l : list str) :
  l <> [] -> PyStr.join sep (x :: l) = x ++ sep ++ PyStr.join sep l.
Proof. destruct l; [congruence|reflexivity]. Qed.

(** Every line joined is a part of the text. *)
Lemma join_holds (sep e : str) (l : list str) :
  In e l -> exists a b, PyStr.join sep l = a ++ e ++ b.
Proof.
  induction l as [|x l IH]; [contradiction|].
  intros [->|Hin].
  - destruct l as [|y l].
    + exists [], []. simpl. now rewrite app_nil_r.
    + exists [], (sep ++ PyStr.join sep (y :: l)). reflexivity.
  - destruct (IH Hin) as (a & b & E).
    destruct l as [|y l]; [contradiction|].
    exists (x ++ sep ++ a), b. rewrite join_cons by discriminate.
    rewrite E, <- !app_assoc. reflexivity.
Qed.

(** A joined text whose lines [rstrip] leaves alone is left alone. *)
Lemma rstrip_join_fixed (sep : str) (l : list str) :
  l <> [] ->
  (forall e, In e l -> e <> [] /\ PyStr.rstrip e = e) ->
  PyStr.join sep l <> [] /\ PyStr.rstrip (PyStr.join sep l) = PyStr.join sep l.
Proof.
  induction l as [|x l IH]; [congruence|]. intros _ H.
  destruct l as [|y l].
  - apply H. now left.
  - destruct IH as [Hne Hfix]; [discriminate|intros e He; apply H; now right|].
    rewrite join_cons by discriminate. split.
    + intros E. apply app_eq_nil in E. destruct E as [_ E].
      apply app_eq_nil in E. tauto.
    + rewrite !app_assoc. now apply rstrip_app_fixed.
Qed.

(** * The statute loop *)

(** The lines the loop appends are the body lines, indented. *)
Lemma scan_statute_text_lines (soup : Bs4.node) (raws : list str) (st : scan) :
  statute_text_lines (fold_left (scan_line soup) raws st)
  = statute_text_lines st
    ++ map (indented soup) (body_lines (found_section st) (found_statute_text st) raws).
Proof.
  revert st. induction raws as [|raw raws IH]; intros st.
  - simpl. now rewrite app_nil_r.
  - cbn [fold_left body_lines]. rewrite IH. unfold scan_line, process_line.
    destruct (PyStr.strip raw) as [|c line]; [reflexivity|].
    destruct (PyStr.startswith "Sec." (c :: line) && negb (found_section st));
      [reflexivity|].
    destruct (PyStr.startswith "(Source:" (c :: line)); [reflexivity|].
    destruct (found_statute_text st) eqn:E; cbn [statute_text_lines found_section
      found_statute_text map]; [|now rewrite E].
    now rewrite <- app_assoc.
Qed.

(** Every body line is a line of the text, stripped, and is not empty. *)
Lemma body_lines_from (fs ft : bool) (raws : list str) (line : str) :
  In line (body_lines fs ft raws) ->
  line <> [] /\ exists raw, In raw raws /\ line = PyStr.strip raw.
Proof.
  revert fs ft. induction raws as [|raw raws IH]; intros fs ft; [contradiction|].
  cbn [body_lines].
  assert (Hrest : forall fs' ft', In line (body_lines fs' ft' raws) ->
                  line <> [] /\ exists raw0, In raw0 (raw :: raws) /\ line = PyStr.strip raw0).
  { intros fs' ft' H. destruct (IH _ _ H) as (Hne & raw0 & Hin & E).
    split; [exact Hne|]. exists raw0. split; [now right|exact E]. }
  destruct (PyStr.strip raw) as [|c l] eqn:Es; [apply Hrest|].
  destruct (PyStr.startswith "Sec." (c :: l) && negb fs); [apply Hrest|].
  destruct (PyStr.startswith "(Source:" (c :: l)); [apply Hrest|].
  destruct ft; [|apply Hrest].
  intros [<-|H]; [|now apply Hrest with (fs' := fs) (ft' := true)].
  split; [discriminate|]. exists raw. split; [now left|now rewrite Es].
Qed.

(** The section number and the source come from lines of the text. *)
Lemma scan_section_number_from (soup : Bs4.node) (raws : list str) (st : scan) (x : str) :
  section_number (fold_left (scan_line soup) raws st) = Some x ->
  section_number st = Some x \/
  exists raw, In raw raws /\ PyStr.startswith "Sec." (PyStr.strip raw) = true /\
              x = section_number_of (PyStr.strip raw).
Proof.
  revert st. induction raws as [|raw raws IH]; intros st H; [now left|].
  cbn [fold_left] in H. destruct (IH _ H) as [Hst | (raw0 & Hin & Hs & Hx)].
  - unfold scan_line, process_line in Hst.
    destruct (PyStr.strip raw) as [|c l] eqn:Es; [now left|].
    destruct (PyStr.startswith "Sec." (c :: l)) eqn:Esec; cbn [andb] in Hst.
    + destruct (negb (found_section st)).
      * right. exists raw. split; [now left|]. rewrite Es. split; [exact Esec|].
        cbn [section_number] in Hst. now injection Hst as <-.
      * left. destruct (PyStr.startswith "(Source:" (c :: l));
          [exact Hst|destruct (found_statute_text st); exact Hst].
    + left. destruct (PyStr.startswith "(Source:" (c :: l));
        [exact Hst|destruct (found_statute_text st); exact Hst].
  - right. exists raw0. split; [now right|tauto].
Qed.

Lemma scan_source_from (soup : Bs4.node) (raws : list str) (st : scan) (x : str) :
  source (fold_left (scan_line soup) raws st) = Some x ->
  source st = Some x \/
  exists raw, In raw raws /\ PyStr.startswith "(Source:" (PyStr.strip raw) = true /\
              x = PyStr.strip raw.
Proof.
  revert st. induction raws as [|raw raws IH]; intros st H; [now left|].
  cbn [fold_left] in H. destruct (IH _ H) as [Hst | (raw0 & Hin & Hs & Hx)].
  - unfold scan_line, process_line in Hst.
    destruct (PyStr.strip raw) as [|c l] eqn:Es; [now left|].
    destruct (PyStr.startswith "Sec." (c :: l) && negb (found_section st));
      [now left|].
    destruct (PyStr.startswith "(Source:" (c :: l)) eqn:Esrc.
    + right. exists raw. split; [now left|]. rewrite Es. split; [exact Esrc|].
      cbn [source] in Hst. now injection Hst as <-.
    + left. destruct (found_statute_text st); exact Hst.
  - right. exists raw0. split; [now right|tauto].
Qed.

(** * The lookup of a line in the tree *)

(** The node found satisfies the test. *)
Lemma find_string_in_sat (p : str -> bool) (n : Bs4.node) :
  forall pprev prev pl,
    Bs4.find_string_in p pprev prev n = Some pl -> p (Bs4.text_of pl) = true.
Proof.
  induction n as [cls t|name attrs cs IH] using node_induction; intros pprev prev pl.
  - cbn [Bs4.find_string_in]. destruct (p t) eqn:E; [|discriminate].
    now intros [= <-].
  - cbn [Bs4.find_string_in]. generalize (@nil Bs4.node) as before.
    induction IH as [|c cs Hc _ IHcs]; intros before; [discriminate|].
    destruct (Bs4.find_string_in p prev before c) as [x|] eqn:E.
    + intros [= <-]. exact (Hc _ _ _ E).
    + apply IHcs.
Qed.

Lemma search_escape_empty (line : str) :
  line <> [] -> Re.search (Re.escape line) [] = None.
Proof.
  intros H. unfold Re.search, Re.escape. cbn [Re.search_from]. unfold Re.match_at.
  rewrite m_lit. destruct line; [congruence|reflexivity].
Qed.

(** The node found for a line that is not empty has a text. *)
Lemma find_string_text (soup : Bs4.node) (line : str) (pl : Bs4.place) :
  line <> [] ->
  Bs4.find_string (Re.escape line) soup = Some pl -> Bs4.text_of pl <> [].
Proof.
  intros Hline H. unfold Bs4.find_string in H.
  apply find_string_in_sat in H. intros E. rewrite E in H.
  now rewrite (search_escape_empty _ Hline) in H.
Qed.

(** The loop over the preceding siblings puts the run of strings back in
    document order. *)
Lemma leading_whitespace_run (siblings : list Bs4.node) (acc : str) :
  leading_whitespace siblings acc = concat (string_run siblings) ++ acc.
Proof.
  revert acc. induction siblings as [|[cls t|name attrs cs] rest IH]; intros acc;
    try reflexivity.
  cbn [leading_whitespace string_run]. rewrite IH, concat_app. cbn [concat].
  now rewrite app_nil_r, <- app_assoc.
Qed.

(** What is appended for a body line: the line after as many spaces as
    the run of strings before the parent of the node found holds, a
    non-breaking space counting as a space; the line itself when no node
    is found. *)
Lemma indented_spec (soup : Bs4.node) (line : str) :
  line <> [] ->
  indented soup line =
  match Bs4.find_string (Re.escape line) soup with
  | Some node =>
      repeat PyStr.SPACE
        (PyStr.count_chr PyStr.SPACE
           (PyStr.replace_chr PyStr.NBSP PyStr.SPACE
              (concat (string_run (Bs4.parent_previous_siblings node)))))
      ++ line
  | None => line
  end.
Proof.
  intros Hline. unfold indented.
  destruct (Bs4.find_string (Re.escape line) soup) as [node|] eqn:E; [|reflexivity].
  pose proof (find_string_text _ _ _ Hline E) as Ht.
  destruct (Bs4.text_of node); [congruence|].
  unfold indent_spaces. now rewrite leading_whitespace_run, app_nil_r.
Qed.

Lemma indented_form (soup : Bs4.node) (line : str) :
  exists n, indented soup line = repeat PyStr.SPACE n ++ line.
Proof.
  unfold indented.
  destruct (Bs4.find_string (Re.escape line) soup) as [node|]; [|now exists 0].
  destruct (Bs4.text_of node); [now exists 0|]. eexists. reflexivity.
Qed.

(** * Statute pages *)

Lemma after_amendment_spec (all_text : str) :
  fst (after_amendment all_text) = PyStr.contains amendment_marker all_text /\
  snd (after_amendment all_text)
  = match PyStr.index amendment_marker all_text with
    | Some i => skipn (i + length amendment_marker) all_text
    | None => all_text
    end.
Proof.
  unfold after_amendment, PyStr.contains, PyStr.split1.
  destruct (PyStr.index amendment_marker all_text); split; reflexivity.
Qed.

(** The page has a body: the function returns, and its row is read off
    the state the loop ends in. *)
Lemma parse_statute_document_ok (soup : Bs4.node) (all_text : str) :
  body_text soup = Ok all_text ->
  parse_statute_document soup
  = let st := fold_left (scan_line soup)
                (PyStr.split_chr PyStr.LF (snd (after_amendment all_text))) scan_init in
    Ok {| ilcs_code := ilcs_code_of soup;
          statute_section_number := section_number st;
          statute_text := PyStr.strip (PyStr.join [PyStr.LF] (statute_text_lines st));
          statute_source := source st;
          amended_statute := fst (after_amendment all_text) |}.
Proof.
  intros H. unfold parse_statute_document, bind. rewrite H.
  now destruct (after_amendment all_text).
Qed.

(** C2, as amended.  On a page with a body the function returns, and
    [statute_text] is the body lines, each put after its indentation,
    joined by line feeds and stripped as a whole (so the first line loses
    its indentation).  The indentation of a line is as many spaces as
    there are spaces, a non-breaking space counting as one, in the run of
    string nodes that precede the parent of the first string node of the
    page that contains the line, walked backward up to the first node
    that is no string; a line no node contains is not indented. *)
Theorem body_line_indentation (soup : Bs4.node) (all_text : str) :
  body_text soup = Ok all_text ->
  exists r lines,
    parse_statute_document soup = Ok r /\
    lines = body_lines false false
              (PyStr.split_chr PyStr.LF (snd (after_amendment all_text))) /\
    statute_text r = PyStr.strip (PyStr.join [PyStr.LF] (map (indented soup) lines)) /\
    forall line, In line lines ->
      indented soup line =
      match Bs4.find_string (Re.escape line) soup with
      | Some node =>
          repeat PyStr.SPACE
            (PyStr.count_chr PyStr.SPACE
               (PyStr.replace_chr PyStr.NBSP PyStr.SPACE
                  (concat (string_run (Bs4.parent_previous_siblings node)))))
          ++ line
      | None => line
      end.
Proof.
  intros Hbody. eexists. eexists.
  split; [exact (parse_statute_document_ok _ _ Hbody)|].
  split; [reflexivity|]. cbv zeta. cbn [statute_text]. split.
  - now rewrite scan_statute_text_lines.
  - intros line Hin. apply indented_spec. now apply body_lines_from in Hin.
Qed.

(** The second body line of the sample page has two spaces before it, the
    first one none. *)
Lemma body_line_indentation_witness :
  exists r lines,
    parse_statute_document indented_page = Ok r /\
    lines = ["This Act may be cited as the Example Act." : str;
             "(a) It applies to examples." : str] /\
    statute_text r
    = "This Act may be cited as the Example Act." ++ [PyStr.LF]
      ++ "  (a) It applies to examples." /\
    indented indented_page "(a) It applies to examples."
    = "  (a) It applies to examples.".
Proof.
  destruct (body_line_indentation indented_page
              (PyStr.join [PyStr.LF]
                 ["(5 ILCS 5/1)" : str; "Sec. 1. Short title." : str;
                  "This Act may be cited as the Example Act." : str;
                  "(a) It applies to examples." : str;
                  "(Source: P.A. 90-655, eff. 7-30-98.)" : str]) eq_refl)
    as (r & lines & Hr & Hlines & Htext & Hindent).
  exists r, lines. split; [exact Hr|].
  split; [rewrite Hlines; vm_compute; reflexivity|].
  split; [rewrite Htext, Hlines; vm_compute; reflexivity|].
  vm_compute. reflexivity.
Defined.

(** C2 fails as it is stated.  On the sample page the string node of the
    second body line has no preceding sibling at all, so the statement
    gives it no indentation; the line is in [statute_text] with two
    spaces, those of the string before its paragraph.  And a first body
    line indented by two spaces has none in [statute_text]. *)
Lemma own_siblings_indentation_counterexample :
  exists r node r',
    parse_statute_document indented_page = Ok r /\
    statute_text r
    = "This Act may be cited as the Example Act." ++ [PyStr.LF]
      ++ "  (a) It applies to examples." /\
    Bs4.find_string (Re.escape "(a) It applies to examples.") indented_page
    = Some node /\
    Bs4.previous_siblings node = [] /\
    indented_by_own_siblings indented_page "(a) It applies to examples."
    = "(a) It applies to examples." /\
    parse_statute_document first_line_page = Ok r' /\
    indented first_line_page "This Act may be cited as the Example Act."
    = "  This Act may be cited as the Example Act." /\
    statute_text r' = "This Act may be cited as the Example Act.".
Proof.
  eexists. eexists. eexists.
  split; [vm_compute; reflexivity|].
  split; [vm_compute; reflexivity|].
  split; [vm_compute; reflexivity|].
  repeat split; vm_compute; reflexivity.
Qed.

(** C3, as amended.  On a page with a body the function returns;
    [amended_statute] tells whether the flattened text holds the marker,
    and when it does the lines are taken from the text that follows its
    first occurrence: every body line, the section number and the source
    come from a line of that text.  The lookup of the indentation is made
    in the whole page. *)
Theorem amendment_restricts_lines (soup : Bs4.node) (all_text : str) :
  body_text soup = Ok all_text ->
  exists r text,
    parse_statute_document soup = Ok r /\
    amended_statute r = PyStr.contains amendment_marker all_text /\
    text = match PyStr.index amendment_marker all_text with
           | Some i => skipn (i + length amendment_marker) all_text
           | None => all_text
           end /\
    (forall i, PyStr.index amendment_marker all_text = Some i ->
       all_text = firstn i all_text ++ amendment_marker ++ text /\
       forall j, j < i -> PyStr.startswith amendment_marker (skipn j all_text) = false) /\
    statute_text r
    = PyStr.strip (PyStr.join [PyStr.LF]
        (map (indented soup) (body_lines false false (PyStr.split_chr PyStr.LF text)))) /\
    (forall line, In line (body_lines false false (PyStr.split_chr PyStr.LF text)) ->
       exists raw, In raw (PyStr.split_chr PyStr.LF text) /\ line = PyStr.strip raw) /\
    (forall x, statute_section_number r = Some x ->
       exists raw, In raw (PyStr.split_chr PyStr.LF text) /\
                   PyStr.startswith "Sec." (PyStr.strip raw) = true /\
                   x = section_number_of (PyStr.strip raw)) /\
    (forall x, statute_source r = Some x ->
       exists raw, In raw (PyStr.split_chr PyStr.LF text) /\
                   PyStr.startswith "(Source:" (PyStr.strip raw) = true /\
                   x = PyStr.strip raw).
Proof.
  intros Hbody. eexists. eexists.
  split; [exact (parse_statute_document_ok _ _ Hbody)|].
  destruct (after_amendment_spec all_text) as [Hflag Htext].
  cbv zeta. cbn [amended_statute statute_text statute_section_number statute_source].
  split; [exact Hflag|]. split; [reflexivity|].
  rewrite Htext.
  split.
  { intros i Hi. rewrite Hi. split; [now apply index_split|].
    intros j Hj. now apply index_first with (i := i). }
  split; [now rewrite scan_statute_text_lines|].
  split; [intros line Hin; now apply body_lines_from in Hin|].
  split.
  - intros x Hx. apply scan_section_number_from in Hx.
    destruct Hx as [Hx|Hx]; [discriminate Hx|exact Hx].
  - intros x Hx. apply scan_source_from in Hx.
    destruct Hx as [Hx|Hx]; [discriminate Hx|exact Hx].
Qed.

(** The amended sample page: the lines after the marker. *)
Lemma amendment_restricts_lines_witness :
  exists r,
    parse_statute_document amended_page = Ok r /\
    amended_statute r = true /\
    statute_section_number r = Some ("1. Short title." : str) /\
    statute_source r = Some ("(Source: P.A. 99-1, eff. 1-1-16.)" : str) /\
    body_lines false false (PyStr.split_chr PyStr.LF
      (" by P.A. 99-1)" ++ [PyStr.LF] ++ "Sec. 1. Short title." ++ [PyStr.LF]
       ++ "This Act may be cited as the Example Act." ++ [PyStr.LF]
       ++ "(a) It applies to examples." ++ [PyStr.LF]
       ++ "(Source: P.A. 99-1, eff. 1-1-16.)"))
    = ["This Act may be cited as the Example Act." : str;
       "(a) It applies to examples." : str].
Proof.
  destruct (amendment_restricts_lines amended_page
              (PyStr.join [PyStr.LF]
                 ["(Text of Section before amendment by P.A. 99-1)" : str;
                  "Sec. 1. Short title." : str;
                  "This Act may be cited as the Old Act." : str;
                  "(a) It applies to examples." : str;
                  "(Source: P.A. 90-655, eff. 7-30-98.)" : str;
                  "(Text of Section after amendment by P.A. 99-1)" : str;
                  "Sec. 1. Short title." : str;
                  "This Act may be cited as the Example Act." : str;
                  "(a) It applies to examples." : str;
                  "(Source: P.A. 99-1, eff. 1-1-16.)" : str]) eq_refl)
    as (r & text & Hr & Hflag & _).
  exists r. split; [exact Hr|]. split; [rewrite Hflag; vm_compute; reflexivity|].
  assert (Hr' : parse_statute_document amended_page = Ok r) by exact Hr.
  vm_compute in Hr'. injection Hr' as <-.
  repeat split; vm_compute; reflexivity.
Defined.

(** C3 fails as it is stated.  On the amended sample page the line
    [(a) ...] is not indented in the text after the marker, and it is in
    [statute_text] with the four spaces it has before the marker: the
    lookup finds its first occurrence in the page.  The page cut down to
    what follows the marker gives the line without them. *)
Lemma amended_lookup_counterexample :
  exists r r',
    parse_statute_document amended_page = Ok r /\
    amended_statute r = true /\
    statute_text r
    = "This Act may be cited as the Example Act." ++ [PyStr.LF]
      ++ "    (a) It applies to examples." /\
    parse_statute_document after_marker_page = Ok r' /\
    statute_text r'
    = "This Act may be cited as the Example Act." ++ [PyStr.LF]
      ++ "(a) It applies to examples.".
Proof.
  eexists. eexists.
  split; [vm_compute; reflexivity|].
  repeat split; vm_compute; reflexivity.
Qed.

(** * The section line, the body and the source *)

(** The loop over the lines is the loop over the stripped lines that are
    not empty. *)
Lemma scan_clean (soup : Bs4.node) (raws : list str) (st : scan) :
  fold_left (scan_line soup) raws st
  = fold_left (process_line soup) (filter nonempty (map PyStr.strip raws)) st.
Proof.
  revert st. induction raws as [|raw raws IH]; intros st; [reflexivity|].
  cbn [fold_left map filter]. unfold scan_line at 2.
  destruct (PyStr.strip raw) as [|c l]; cbn [nonempty fold_left]; apply IH.
Qed.

Lemma clean_line_stripped (all_text line : str) :
  In line (clean_lines all_text) ->
  line <> [] /\ PyStr.lstrip line = line /\ PyStr.rstrip line = line.
Proof.
  unfold clean_lines. intros H. apply filter_In in H. destruct H as [H Hne].
  apply in_map_iff in H. destruct H as (raw & <- & _).
  split; [now destruct (PyStr.strip raw)|].
  split; [apply strip_lstrip_fixed|apply strip_rstrip_fixed].
Qed.

(** Before the section line: nothing is kept. *)
Lemma process_before_section (soup : Bs4.node) (pre : list str) (st : scan) :
  (forall l, In l pre -> PyStr.startswith "Sec." l = false) ->
  found_statute_text st = false ->
  let st' := fold_left (process_line soup) pre st in
  section_number st' = section_number st /\
  found_section st' = found_section st /\
  found_statute_text st' = false /\
  statute_text_lines st' = statute_text_lines st.
Proof.
  revert st. induction pre as [|l pre IH]; intros st Hpre Hft; [cbn; tauto|].
  cbn [fold_left].
  assert (Hl : PyStr.startswith "Sec." l = false) by (apply Hpre; now left).
  assert (Hstep : section_number (process_line soup st l) = section_number st /\
                  found_section (process_line soup st l) = found_section st /\
                  found_statute_text (process_line soup st l) = false /\
                  statute_text_lines (process_line soup st l) = statute_text_lines st).
  { unfold process_line. rewrite Hl, Hft. cbn [andb].
    destruct (PyStr.startswith "(Source:" l); cbn; tauto. }
  destruct Hstep as (H1 & H2 & H3 & H4).
  destruct (IH (process_line soup st l)) as (I1 & I2 & I3 & I4);
    [intros l' Hl'; apply Hpre; now right|exact H3|].
  cbv zeta. rewrite I1, I2, I3, I4. tauto.
Qed.

(** The body: every line is kept. *)
Lemma process_body (soup : Bs4.node) (body : list str) (st : scan) :
  (forall l, In l body -> PyStr.startswith "(Source:" l = false) ->
  found_section st = true ->
  found_statute_text st = true ->
  let st' := fold_left (process_line soup) body st in
  section_number st' = section_number st /\
  source st' = source st /\
  found_section st' = true /\
  found_statute_text st' = true /\
  statute_text_lines st' = statute_text_lines st ++ map (indented soup) body.
Proof.
  revert st. induction body as [|l body IH]; intros st Hbody Hfs Hft.
  - cbn. rewrite app_nil_r. tauto.
  - cbn [fold_left map].
    assert (Hl : PyStr.startswith "(Source:" l = false) by (apply Hbody; now left).
    assert (Hstep : process_line soup st l
                    = {| section_number := section_number st;
                         source := source st;
                         found_section := found_section st;
                         found_statute_text := true;
                         statute_text_lines := statute_text_lines st ++ [indented soup l] |}).
    { unfold process_line. rewrite Hl, Hft, Hfs. cbn [negb]. now rewrite andb_false_r. }
    destruct (IH (process_line soup st l)) as (I1 & I2 & I3 & I4 & I5);
      [intros l' Hl'; apply Hbody; now right|now rewrite Hstep|now rewrite Hstep|].
    cbv zeta. rewrite I1, I2, I3, I4, I5, Hstep.
    cbn [section_number source statute_text_lines]. rewrite <- app_assoc. tauto.
Qed.

(** After the source line: nothing changes. *)
Lemma process_after_source (soup : Bs4.node) (post : list str) (st : scan) :
  (forall l, In l post -> PyStr.startswith "(Source:" l = false) ->
  found_section st = true ->
  found_statute_text st = false ->
  fold_left (process_line soup) post st = st.
Proof.
  induction post as [|l post IH]; intros Hpost Hfs Hft; [reflexivity|].
  cbn [fold_left].
  assert (Hstep : process_line soup st l = st).
  { unfold process_line. rewrite Hfs, Hft, (Hpost l (or_introl eq_refl)).
    cbn [negb]. now rewrite andb_false_r. }
  rewrite Hstep. apply IH; [intros l' Hl'; apply Hpost; now right|assumption..].
Qed.

Lemma process_section (soup : Bs4.node) (pre body post : list str) (sec src : str) :
  (forall l, In l pre -> PyStr.startswith "Sec." l = false) ->
  PyStr.startswith "Sec." sec = true ->
  (forall l, In l body -> PyStr.startswith "(Source:" l = false) ->
  PyStr.startswith "(Source:" src = true ->
  (forall l, In l post -> PyStr.startswith "(Source:" l = false) ->
  let st := fold_left (process_line soup) (pre ++ [sec] ++ body ++ [src] ++ post)
              scan_init in
  section_number st = Some (section_number_of sec) /\
  source st = Some src /\
  statute_text_lines st = map (indented soup) body.
Proof.
  intros Hpre Hsec Hbody Hsrc Hpost. cbv zeta.
  rewrite fold_left_app.
  destruct (process_before_section soup pre scan_init Hpre eq_refl)
    as (_ & P2 & P3 & P4).
  cbv zeta in P2, P3, P4. cbn [found_section statute_text_lines scan_init] in P2, P4.
  set (st1 := fold_left (process_line soup) pre scan_init) in *.
  cbn [app fold_left].
  assert (E2 : process_line soup st1 sec
               = {| section_number := Some (section_number_of sec);
                    source := source st1;
                    found_section := true;
                    found_statute_text := true;
                    statute_text_lines := [] |}).
  { unfold process_line. rewrite Hsec, P2, P4. reflexivity. }
  rewrite E2. clear E2. rewrite fold_left_app.
  match goal with
  | |- context [fold_left (process_line soup) body ?st] =>
      destruct (process_body soup body st Hbody eq_refl eq_refl)
        as (B1 & B2 & B3 & B4 & B5);
      cbv zeta in B1, B2, B3, B4, B5;
      cbn [section_number source statute_text_lines app] in B1, B2, B5;
      set (st3 := fold_left (process_line soup) body st) in *
  end.
  cbn [fold_left].
  assert (E4 : process_line soup st3 src
               = {| section_number := section_number st3;
                    source := Some src;
                    found_section := found_section st3;
                    found_statute_text := false;
                    statute_text_lines := statute_text_lines st3 |}).
  { unfold process_line. rewrite B3, Hsrc. cbn [negb]. now rewrite andb_false_r. }
  rewrite E4, process_after_source; [|exact Hpost|exact B3|reflexivity].
  cbn [section_number source statute_text_lines]. tauto.
Qed.

Lemma join_head_app (sep a x : str) (l : list str) :
  PyStr.join sep ((a ++ x) :: l) = a ++ PyStr.join sep (x :: l).
Proof. destruct l; cbn [PyStr.join]; [reflexivity|now rewrite <- app_assoc]. Qed.

Lemma join_head (sep x : str) (l : list str) :
  exists t, PyStr.join sep (x :: l) = x ++ t.
Proof.
  destruct l; [exists []; simpl; now rewrite app_nil_r|eexists; reflexivity].
Qed.

(** The block of the indented body lines, stripped: the first line
    without its indentation, the others with theirs. *)
Lemma strip_indented_block (soup : Bs4.node) (first : str) (rest : list str) :
  (forall l, In l (first :: rest) ->
     l <> [] /\ PyStr.lstrip l = l /\ PyStr.rstrip l = l) ->
  PyStr.strip (PyStr.join [PyStr.LF] (map (indented soup) (first :: rest)))
  = PyStr.join [PyStr.LF] (first :: map (indented soup) rest).
Proof.
  intros H. cbn [map].
  destruct (indented_form soup first) as [n ->].
  rewrite join_head_app. unfold PyStr.strip. rewrite lstrip_spaces.
  destruct (H first (or_introl eq_refl)) as (Hne & Hl & Hr).
  destruct (join_head [PyStr.LF] first (map (indented soup) rest)) as [t Et].
  rewrite Et at 1. rewrite (lstrip_app_fixed _ _ Hne Hl), <- Et.
  apply rstrip_join_fixed; [discriminate|].
  intros e [<-|He]; [tauto|].
  apply in_map_iff in He. destruct He as (l & <- & Hin).
  destruct (H l (or_intror Hin)) as (Hlne & _ & Hlr).
  destruct (indented_form soup l) as [k ->]. split.
  - intros E. apply app_eq_nil in E. tauto.
  - now apply rstrip_app_fixed.
Qed.

(** C4, as amended.  Let the lines of the text the loop reads (the
    flattened body, or what follows the amendment marker) be: lines none
    of which starts with [Sec.], then a line [sec] that does, then body
    lines none of which starts with [(Source:], at least one, then a line
    [src] that does, then lines none of which does.  Then the function
    returns; the section number is the trimmed text after the first dot of
    [sec], the source is [src] as it stands, and [statute_text] is the
    body lines joined by line feeds, the first without indentation and
    the others with theirs: it is not empty, it holds every body line, and
    none of its lines is a source line.  The lines before [sec] and after
    [src] leave no trace. *)
Theorem section_body_source (soup : Bs4.node) (all_text : str)
    (pre body post : list str) (sec src : str) :
  body_text soup = Ok all_text ->
  clean_lines (snd (after_amendment all_text)) = pre ++ [sec] ++ body ++ [src] ++ post ->
  (forall l, In l pre -> PyStr.startswith "Sec." l = false) ->
  PyStr.startswith "Sec." sec = true ->
  body <> [] ->
  (forall l, In l body -> PyStr.startswith "(Source:" l = false) ->
  PyStr.startswith "(Source:" src = true ->
  (forall l, In l post -> PyStr.startswith "(Source:" l = false) ->
  exists r first rest,
    parse_statute_document soup = Ok r /\
    statute_section_number r = Some (section_number_of sec) /\
    statute_source r = Some src /\
    body = first :: rest /\
    statute_text r = PyStr.join [PyStr.LF] (first :: map (indented soup) rest) /\
    statute_text r <> [] /\
    (forall l, In l body -> PyStr.contains l (statute_text r) = true) /\
    (forall e, In e (first :: map (indented soup) rest) ->
       PyStr.startswith "(Source:" (PyStr.lstrip e) = false).
Proof.
  intros Hbody Hlines Hpre Hsec Hne Hb Hsrc Hpost.
  destruct body as [|first rest]; [congruence|].
  eexists. exists first, rest.
  split; [exact (parse_statute_document_ok _ _ Hbody)|].
  cbv zeta. cbn [statute_section_number statute_source statute_text].
  rewrite scan_clean. fold (clean_lines (snd (after_amendment all_text))).
  rewrite Hlines.
  destruct (process_section soup pre (first :: rest) post sec src
              Hpre Hsec Hb Hsrc Hpost) as (S1 & S2 & S3).
  cbv zeta in S1, S2, S3. rewrite S1, S2, S3.
  assert (Hstripped : forall l, In l (first :: rest) ->
            l <> [] /\ PyStr.lstrip l = l /\ PyStr.rstrip l = l).
  { intros l Hl. apply (clean_line_stripped (snd (after_amendment all_text))).
    rewrite Hlines. apply (in_or_app pre). right. right.
    apply (in_or_app (first :: rest)). now left. }
  rewrite (strip_indented_block soup first rest Hstripped).
  split; [reflexivity|]. split; [reflexivity|]. split; [reflexivity|].
  split; [reflexivity|].
  destruct (join_head [PyStr.LF] first (map (indented soup) rest)) as [t Et].
  split; [|split].
  - rewrite Et. destruct (Hstripped first (or_introl eq_refl)) as (Hf & _).
    intros E. apply app_eq_nil in E. tauto.
  - intros l [<-|Hl].
    + rewrite Et. apply (contains_app first [] t).
    + assert (Hin : In (indented soup l) (first :: map (indented soup) rest))
        by (right; now apply in_map).
      destruct (join_holds [PyStr.LF] _ _ Hin) as (a & b & E). rewrite E.
      destruct (indented_form soup l) as [n ->].
      rewrite <- app_assoc, app_assoc. apply contains_app.
  - intros e [<-|He].
    + destruct (Hstripped first (or_introl eq_refl)) as (_ & Hl & _).
      rewrite Hl. apply Hb. now left.
    + apply in_map_iff in He. destruct He as (l & <- & Hl).
      destruct (indented_form soup l) as [n ->]. rewrite lstrip_spaces.
      destruct (Hstripped l (or_intror Hl)) as (_ & Hll & _).
      rewrite Hll. apply Hb. now right.
Qed.

(** The sample page: one citation line before the section line, two body
    lines, the source, nothing after it. *)
Lemma section_body_source_witness :
  exists r,
    parse_statute_document indented_page = Ok r /\
    statute_section_number r = Some ("1. Short title." : str) /\
    statute_source r = Some ("(Source: P.A. 90-655, eff. 7-30-98.)" : str) /\
    statute_text r
    = "This Act may be cited as the Example Act." ++ [PyStr.LF]
      ++ "  (a) It applies to examples." /\
    statute_text r <> [].
Proof.
  destruct (section_body_source indented_page
              (PyStr.join [PyStr.LF]
                 ["(5 ILCS 5/1)" : str; "Sec. 1. Short title." : str;
                  "This Act may be cited as the Example Act." : str;
                  "(a) It applies to examples." : str;
                  "(Source: P.A. 90-655, eff. 7-30-98.)" : str])
              ["(5 ILCS 5/1)" : str]
              ["This Act may be cited as the Example Act." : str;
               "(a) It applies to examples." : str]
              []
              "Sec. 1. Short title."
              "(Source: P.A. 90-655, eff. 7-30-98.)")
    as (r & first & rest & Hr & Hsec & Hsrc & Hbody & Htext & Hne & _).
  - reflexivity.
  - vm_compute. reflexivity.
  - intros l [<-|[]]. reflexivity.
  - reflexivity.
  - discriminate.
  - intros l [<-|[<-|[]]]; reflexivity.
  - reflexivity.
  - intros l [].
  - exists r. split; [exact Hr|]. split; [exact Hsec|]. split; [exact Hsrc|].
    split; [|exact Hne].
    injection Hbody as <- <-. rewrite Htext. vm_compute. reflexivity.
Defined.

(** C4 fails as it is stated.  The sample page has the section line, a
    body line and the source line, and one more source line after it: the
    source returned is the last one, not the line that follows the
    body. *)
Lemma later_source_counterexample :
  exists r,
    clean_lines (PyStr.join [PyStr.LF]
      ["Sec. 1. Short title." : str;
       "This Act may be cited as the Example Act." : str;
       "(Source: P.A. 90-655, eff. 7-30-98.)" : str;
       "(Source: Laws 1961, p. 1983.)" : str])
    = [] ++ ["Sec. 1. Short title." : str]
      ++ ["This Act may be cited as the Example Act." : str]
      ++ ["(Source: P.A. 90-655, eff. 7-30-98.)" : str]
      ++ ["(Source: Laws 1961, p. 1983.)" : str] /\
    body_text two_sources_page
    = Ok (PyStr.join [PyStr.LF]
      ["Sec. 1. Short title." : str;
       "This Act may be cited as the Example Act." : str;
       "(Source: P.A. 90-655, eff. 7-30-98.)" : str;
       "(Source: Laws 1961, p. 1983.)" : str]) /\
    parse_statute_document two_sources_page = Ok r /\
    statute_source r = Some ("(Source: Laws 1961, p. 1983.)" : str) /\
    statute_source r <> Some ("(Source: P.A. 90-655, eff. 7-30-98.)" : str).
Proof.
  eexists.
  split; [vm_compute; reflexivity|].
  split; [vm_compute; reflexivity|].
  split; [vm_compute; reflexivity|].
  split; [vm_compute; reflexivity|].
  cbn [statute_source]. discriminate.
Qed.

(** * Further properties: directory listings *)

Lemma url_links_filter (soup pre_tag : Bs4.node) :
  Bs4.find "pre" soup = Some pre_tag ->
  url_links soup
  = filter (fun e => negb (PyStr.eqb (label e) "[To Parent Directory]"))
      (map entry_of (Bs4.find_all "a" pre_tag)).
Proof.
  intros H. unfold url_links. rewrite H.
  induction (Bs4.find_all "a" pre_tag) as [|link links IH]; [reflexivity|].
  cbn [flat_map map filter]. rewrite IH.
  change (label (entry_of link)) with (Bs4.get_text [] false link).
  now destruct (PyStr.eqb (Bs4.get_text [] false link) "[To Parent Directory]").
Qed.

Lemma filter_filter (A : Type) (f g : A -> bool) (l : list A) :
  filter g (filter f l) = filter (fun x => f x && g x) l.
Proof.
  induction l as [|x l IH]; [reflexivity|].
  cbn [filter]. destruct (f x); cbn [filter andb]; [|exact IH].
  destruct (g x); now rewrite IH.
Qed.

(** X1.  The listing [_get_pages] returns is the anchors of the first
    [<pre>] block in their order, less those labelled as the parent
    directory or [aReadMe]: no entry has one of these labels, and every
    other anchor of the block is an entry. *)
Theorem get_pages_entries (web : site) (url_path base_url : str)
    (soup pre_tag : Bs4.node) (data : list DirectoryEntry) :
  web (base_url ++ url_path) = Ok (Some soup) ->
  Bs4.find "pre" soup = Some pre_tag ->
  _get_pages web url_path base_url = Ok data ->
  data = filter kept_entry (map entry_of (Bs4.find_all "a" pre_tag)) /\
  (forall e, In e data ->
     label e <> "[To Parent Directory]" /\ label e <> "aReadMe") /\
  (forall link, In link (Bs4.find_all "a" pre_tag) ->
     Bs4.get_text [] false link <> "[To Parent Directory]" ->
     Bs4.get_text [] false link <> "aReadMe" ->
     In (entry_of link) data).
Proof.
  intros Hweb Hpre Hget.
  unfold _get_pages, _request_util, bind in Hget. rewrite Hweb in Hget.
  rewrite (url_links_filter _ _ Hpre) in Hget.
  assert (Hdata : data = filter kept_entry (map entry_of (Bs4.find_all "a" pre_tag))).
  { destruct (filter _ (map entry_of (Bs4.find_all "a" pre_tag))) eqn:E;
      [discriminate|].
    assert (Hd : data = filter (fun e => negb (PyStr.eqb (label e) "aReadMe")) (d :: l))
      by congruence.
    rewrite Hd, <- E. apply filter_filter. }
  split; [exact Hdata|]. split.
  - intros e He. rewrite Hdata in He. apply filter_In in He.
    destruct He as [_ He]. unfold kept_entry in He.
    apply andb_true_iff in He. destruct He as [H1 H2].
    split; intros E; rewrite E in *; discriminate.
  - intros link Hlink Hparent Hreadme. rewrite Hdata. apply filter_In.
    split; [now apply in_map|]. unfold kept_entry, entry_of. cbn [label].
    apply andb_true_iff. split; apply negb_true_iff, not_true_is_false;
      intros E; apply eqb_eq in E; contradiction.
Qed.

(** The root listing of the sample site: the parent link and [aReadMe]
    are left out. *)
Lemma get_pages_entries_witness :
  _get_pages sample_site "/ftp/ILCS/" "https://ilga.gov"
  = Ok [ {| label := "Ch 0005"; href := Some ("/ftp/ILCS/Ch%200005/" : str) |} ] /\
  forall e, In e [ {| label := "Ch 0005"; href := Some ("/ftp/ILCS/Ch%200005/" : str) |} ] ->
    label e <> "[To Parent Directory]" /\ label e <> "aReadMe".
Proof.
  split; [reflexivity|].
  refine (proj1 (proj2 (get_pages_entries sample_site "/ftp/ILCS/" "https://ilga.gov"
    (listing [anchor "aReadMe" "/ftp/ILCS/aReadMe/";
              anchor "Ch 0005" "/ftp/ILCS/Ch%200005/"])
    (Bs4.Tag "pre" [] (anchor "[To Parent Directory]" "/ftp/"
       :: [anchor "aReadMe" "/ftp/ILCS/aReadMe/";
           anchor "Ch 0005" "/ftp/ILCS/Ch%200005/"]))
    _ eq_refl eq_refl eq_refl))).
Defined.

(** * Further properties: the labels *)

(** X2.  The two labels the tables of texts are filtered by stand for one
    marker each: a record is labelled [Act (F)] exactly when its marker is
    [F], and [Section (K)] exactly when it is [K]. *)
Theorem type_label_act_section (t : str) :
  (type_label t = ("Act (F)" : str) <-> t = ("F" : str)) /\
  (type_label t = ("Section (K)" : str) <-> t = ("K" : str)).
Proof.
  assert (Hcases : In (t, type_label t) mapping \/ type_label t = ("Unknown" : str)).
  { unfold type_label, mapping. cbn [Bs4.assoc].
    repeat match goal with
           | |- context [PyStr.eqb ?k t] =>
               destruct (PyStr.eqb k t) eqn:?E;
               [ match goal with
                 | H : PyStr.eqb k t = true |- _ =>
                     apply eqb_eq in H; subst t; left; simpl; tauto
                 end | ]
           end.
    now right. }
  split; split; try (intros ->; reflexivity); intros H; rewrite H in Hcases;
    destruct Hcases as [Hin|Hunknown]; try discriminate Hunknown;
    simpl in Hin;
    repeat (destruct Hin as [Hin|Hin]; [try discriminate Hin; now injection Hin|]);
    contradiction.
Qed.

(** * Further properties: the filename classifier *)

Lemma marker_len_no_start (c : ascii) (s : str) :
  no_marker_start c = true -> marker_len (c :: s) = None.
Proof.
  unfold no_marker_start. intros H. apply negb_true_iff in H.
  apply orb_false_iff in H. destruct H as [H HH].
  apply orb_false_iff in H. destruct H as [H HK].
  apply orb_false_iff in H. destruct H as [HA HF].
  rewrite Ascii.eqb_sym in HA, HF, HK, HH.
  unfold marker_len, dot_after.
  cbn [PyStr.startswith list_ascii_of_string].
  now rewrite HA, HF, HK, HH.
Qed.

Lemma first_marker_no_start (s : str) :
  forallb no_marker_start s = true -> first_marker s = [].
Proof.
  induction s as [|c s IH]; [reflexivity|].
  cbn [forallb]. intros H. apply andb_true_iff in H. destruct H as [Hc Hs].
  cbn [first_marker]. rewrite (marker_len_no_start _ _ Hc). now apply IH.
Qed.

(** X3.  A filename that has none of the letters [A], [F], [K], [H] after
    its first 9 characters has no marker: the marker and the residual are
    empty, whether it ends in ".html" or not.  So has a filename of at most
    9 characters, of which the code is the whole. *)
Theorem parse_filestring_no_marker (s : str) :
  forallb no_marker_start (skipn 9 s) = true ->
  _parse_filestring s = (firstn 9 s, [], []) /\
  type_label (snd (fst (_parse_filestring s))) = ("Unknown" : str) /\
  (length s <= 9 -> _parse_filestring s = (s, [], [])).
Proof.
  intros H.
  assert (E : _parse_filestring s = (firstn 9 s, [], [])).
  { rewrite parse_filestring_unfold, (first_marker_no_start _ H). reflexivity. }
  split; [exact E|]. split; [now rewrite E|].
  intros Hlen. now rewrite E, firstn_all2.
Qed.

Lemma parse_filestring_no_marker_witness :
  _parse_filestring "notes.txt" = ("notes.txt" : str, [], []) /\
  _parse_filestring "072000050.html" = ("072000050" : str, [], []).
Proof.
  split.
  - destruct (parse_filestring_no_marker "notes.txt" eq_refl) as (_ & _ & H).
    apply H. vm_compute. lia.
  - exact (proj1 (parse_filestring_no_marker "072000050.html" eq_refl)).
Defined.

(** What the pattern matched somewhere, it matches wherever the same
    text stands. *)
Lemma marker_len_again (u v : str) (n : nat) :
  marker_len u = Some n ->
  PyStr.startswith (firstn n u) v = true ->
  marker_len v <> None.
Proof.
  intros Hu Hv. pose proof (marker_len_shape _ _ Hu) as Hshape.
  apply startswith_split in Hv. rewrite Hv.
  destruct Hshape as [Hin | (p & x & Hp & Hx & E)].
  - simpl in Hin.
    repeat (destruct Hin as [<-|Hin]; [discriminate|]). contradiction.
  - rewrite E, <- app_assoc. cbn [app].
    apply Ascii.eqb_neq in Hx. unfold dotted_prefixes in Hp. simpl in Hp.
    repeat (destruct Hp as [<-|Hp];
            [ unfold marker_len, dot_after; simpl; rewrite Hx; discriminate | ]).
    contradiction.
Qed.

Lemma marker_len_positive (u : str) (n : nat) :
  marker_len u = Some n -> firstn n u <> [].
Proof.
  intros Hu. destruct (marker_len_shape _ _ Hu) as [Hin | (p & x & _ & _ & E)].
  - simpl in Hin. intros E. rewrite E in Hin.
    repeat (destruct Hin as [Hin|Hin]; [discriminate Hin|]). contradiction.
  - rewrite E. intros E'. apply app_eq_nil in E'. destruct E'. discriminate.
Qed.

Lemma marker_len_bound (u : str) (n : nat) :
  marker_len u = Some n -> n <= length u.
Proof.
  unfold marker_len.
  repeat match goal with
         | |- (if PyStr.startswith ?w u then _ else _) = _ -> _ =>
             let E := fresh "E" in
             destruct (PyStr.startswith w u) eqn:E;
             [ intros [= <-]; apply startswith_length in E; exact E | clear E ]
         | |- (if dot_after ?w u then _ else _) = _ -> _ =>
             let E := fresh "E" in
             destruct (dot_after w u) eqn:E;
             [ intros [= <-]; apply dot_after_split in E;
               destruct E as (x & rest & _ & ->);
               rewrite length_app; simpl; lia | clear E ]
         end.
  discriminate.
Qed.

(** The leftmost match: where it is and what it is. *)
Lemma marker_offset_spec (t : str) (p : nat) :
  marker_offset t = Some p ->
  p <= length t /\
  (forall q, q < p -> marker_len (skipn q t) = None) /\
  exists n, marker_len (skipn p t) = Some n /\ first_marker t = firstn n (skipn p t).
Proof.
  revert p. induction t as [|c t IH]; intros p; cbn [marker_offset first_marker].
  - destruct (marker_len []) as [n|] eqn:E; [|discriminate].
    intros [= <-]. split; [simpl; lia|]. split; [intros q Hq; lia|].
    exists n. now split.
  - destruct (marker_len (c :: t)) as [n|] eqn:E.
    + intros [= <-]. split; [simpl; lia|]. split; [intros q Hq; lia|].
      exists n. now split.
    + destruct (marker_offset t) as [p'|] eqn:Ep; [|discriminate].
      intros [= <-]. destruct (IH p' eq_refl) as (Hle & Hbefore & n & Hn & Hfirst).
      split; [simpl; lia|]. split.
      * intros [|q] Hq; [exact E|]. apply Hbefore. lia.
      * exists n. now split.
Qed.

Lemma index_intro (w t : str) (p : nat) :
  p <= length t ->
  PyStr.startswith w (skipn p t) = true ->
  (forall q, q < p -> PyStr.startswith w (skipn q t) = false) ->
  PyStr.index w t = Some p.
Proof.
  revert p. induction t as [|c t IH]; intros p Hle Hat Hbefore.
  - simpl in Hle. assert (p = 0) by lia. subst p. simpl in Hat.
    cbn [PyStr.index]. now rewrite Hat.
  - destruct p as [|p].
    + simpl in Hat. cbn [PyStr.index]. now rewrite Hat.
    + cbn [PyStr.index].
      assert (H0 : PyStr.startswith w (c :: t) = false) by (apply (Hbefore 0); lia).
      rewrite H0.
      rewrite (IH p); [reflexivity|simpl in Hle; lia|exact Hat|].
      intros q Hq. apply (Hbefore (S q)). lia.
Qed.

(** X4.  When the pattern matches, [s.find(letters, 9)] finds the match
    itself: the text matched does not occur between offset 9 and the
    match.  So the marker returned is the text of the leftmost match, and
    the residual is the slice from the end of that match to the first
    ".html" of the filename. *)
Theorem parse_filestring_at_match (s : str) (p : nat) :
  marker_offset (skipn 9 s) = Some p ->
  exists n,
    marker_len (skipn (9 + p) s) = Some n /\
    snd (fst (_parse_filestring s)) = firstn n (skipn (9 + p) s) /\
    PyStr.find s (snd (fst (_parse_filestring s))) 9 = Z.of_nat (9 + p) /\
    snd (_parse_filestring s)
    = PyStr.slice s (Z.of_nat (9 + p + n)) (PyStr.find s ".html" 0).
Proof.
  intros Hp.
  destruct (marker_offset_spec _ _ Hp) as (Hle & Hbefore & n & Hn & Hfirst).
  rewrite skipn_skipn in Hn, Hfirst.
  replace (p + 9) with (9 + p) in Hn, Hfirst by lia.
  exists n. split; [exact Hn|].
  rewrite parse_filestring_letters, Hfirst. split; [reflexivity|].
  assert (Hlen : 9 <= length s).
  { destruct (Nat.le_gt_cases 9 (length s)) as [H|H]; [exact H|].
    rewrite skipn_all2 in Hp by lia. discriminate Hp. }
  assert (Hfind : PyStr.find s (firstn n (skipn (9 + p) s)) 9 = Z.of_nat (9 + p)).
  { unfold PyStr.find.
    replace (length s <? 9)%nat with false by (symmetry; apply Nat.ltb_ge; lia).
    rewrite (index_intro _ _ p Hle); [reflexivity| |].
    - rewrite skipn_skipn. replace (p + 9) with (9 + p) by lia.
      rewrite <- (firstn_skipn n (skipn (9 + p) s)) at 2. apply startswith_app.
    - intros q Hq.
      destruct (PyStr.startswith (firstn n (skipn (9 + p) s)) (skipn q (skipn 9 s)))
        eqn:E; [|reflexivity].
      exfalso. apply (marker_len_again _ _ _ Hn E). now apply Hbefore. }
  split; [exact Hfind|].
  rewrite parse_filestring_unfold. cbv zeta. cbn [snd]. rewrite Hfirst, Hfind.
  pose proof (marker_len_positive _ _ Hn) as Hne.
  destruct (firstn n (skipn (9 + p) s)) as [|x w] eqn:Ew; [congruence|].
  replace (Z.of_nat (9 + p) =? -1)%Z with false by (symmetry; apply Z.eqb_neq; lia).
  f_equal. rewrite <- Ew.
  rewrite firstn_length_le by (now apply marker_len_bound). lia.
Qed.

(** A file whose marker stands two characters after the code. *)
Lemma parse_filestring_at_match_witness :
  exists n,
    marker_len (skipn (9 + 2) "000500050xxK1-1.html") = Some n /\
    snd (fst (_parse_filestring "000500050xxK1-1.html"))
    = firstn n (skipn (9 + 2) "000500050xxK1-1.html") /\
    PyStr.find "000500050xxK1-1.html"
      (snd (fst (_parse_filestring "000500050xxK1-1.html"))) 9 = Z.of_nat (9 + 2) /\
    snd (_parse_filestring "000500050xxK1-1.html")
    = PyStr.slice "000500050xxK1-1.html" (Z.of_nat (9 + 2 + n))
        (PyStr.find "000500050xxK1-1.html" ".html" 0).
Proof. exact (parse_filestring_at_match "000500050xxK1-1.html" 2 eq_refl). Defined.

(** An occurrence in a part of a text is an occurrence in the text. *)
Lemma startswith_in_part (w u : str) (a k j : nat) :
  w <> [] ->
  PyStr.startswith w (skipn j (firstn k (skipn a u))) = true ->
  j < k /\ PyStr.startswith w (skipn (a + j) u) = true.
Proof.
  intros Hw H.
  assert (Hj : j < length (firstn k (skipn a u))).
  { destruct (Nat.le_gt_cases (length (firstn k (skipn a u))) j) as [Hge|Hlt];
      [|exact Hlt].
    rewrite skipn_all2 in H by exact Hge. destruct w; [congruence|discriminate]. }
  split; [pose proof (firstn_le_length k (skipn a u)); lia|].
  replace (a + j) with (j + a) by lia. rewrite <- skipn_skipn.
  rewrite <- (firstn_skipn k (skipn a u)) at 1.
  rewrite skipn_app.
  replace (j - length (firstn k (skipn a u))) with 0 by lia.
  now apply startswith_app_l.
Qed.

Lemma index_app_r_none (w u : str) (a k : nat) (i : nat) :
  w <> [] ->
  PyStr.index w (firstn k (skipn a u)) = Some i ->
  i < k /\ PyStr.startswith w (skipn (a + i) u) = true.
Proof.
  intros Hw H. apply index_occurs in H. destruct H as [H _].
  now apply startswith_in_part.
Qed.

(** X5.  The residual never holds ".html", whatever the filename: it ends
    before the first ".html" of the filename, and it is cut from a
    filename that holds none when it does not end there. *)
Theorem residual_without_extension (s : str) :
  PyStr.contains ".html" (snd (_parse_filestring s)) = false.
Proof.
  rewrite parse_filestring_unfold. cbv zeta. cbn [snd].
  match goal with
  | |- PyStr.contains _ (if ?b then _ else _) = false => destruct b; [reflexivity|]
  end.
  match goal with
  | |- PyStr.contains _ (PyStr.slice s ?a _) = false => generalize a
  end.
  intros a. unfold PyStr.slice, PyStr.contains.
  destruct (PyStr.index ".html" (firstn _ _)) as [i|] eqn:E; [|reflexivity].
  exfalso. apply index_app_r_none in E; [|discriminate].
  destruct E as [Hi Hocc]. unfold PyStr.find in Hi.
  cbn [Nat.ltb Nat.leb skipn] in Hi.
  destruct (PyStr.index ".html" s) as [e|] eqn:Ee.
  - pose proof (index_first _ _ _ (PyStr.bound (length s) a + i) Ee) as Hfirst.
    rewrite Hocc in Hfirst.
    assert (Hlt : PyStr.bound (length s) a + i < e).
    { unfold PyStr.bound at 1 in Hi.
      assert (Hz : (Z.of_nat (0 + e) <? 0)%Z = false) by (apply Z.ltb_ge; lia).
      rewrite Hz, Nat2Z.id in Hi. cbn [Nat.add] in Hi. lia. }
    specialize (Hfirst Hlt). discriminate.
  - pose proof (index_none _ _ (PyStr.bound (length s) a + i) Ee) as Hnone.
    rewrite Hocc in Hnone. discriminate.
Qed.

(** * Further properties: the indentation *)

Lemma count_replace_nbsp (s : str) :
  PyStr.count_chr PyStr.SPACE (PyStr.replace_chr PyStr.NBSP PyStr.SPACE s)
  = length (filter indent_char s).
Proof.
  unfold PyStr.count_chr, PyStr.replace_chr.
  induction s as [|c s IH]; [reflexivity|].
  cbn [map filter]. unfold indent_char at 1.
  destruct (Ascii.eqb c PyStr.NBSP) eqn:En.
  - rewrite orb_true_r. cbn [Ascii.eqb PyStr.SPACE Bool.eqb andb length filter].
    now rewrite IH.
  - rewrite orb_false_r, (Ascii.eqb_sym PyStr.SPACE c).
    destruct (Ascii.eqb c PyStr.SPACE); cbn [length]; now rewrite IH.
Qed.

(** X6.  The indentation counts the characters of the run of strings that
    are spaces or non-breaking spaces, and only those: a tab or a line feed
    between the tags adds nothing. *)
Theorem indent_spaces_counts (siblings : list Bs4.node) :
  indent_spaces siblings = length (filter indent_char (concat (string_run siblings))).
Proof.
  unfold indent_spaces.
  now rewrite leading_whitespace_run, app_nil_r, count_replace_nbsp.
Qed.

(** * Further properties: the crawl *)

(** A loop that ends gives the rows of its turns, in their order. *)
Lemma for_each_ok (A B : Type) (l : list A) (body : A -> result (list B))
    (rows : list B) :
  for_each l body = Ok rows ->
  rows = flat_map (fun a => match body a with Ok r => r | Raise _ => [] end) l.
Proof.
  revert rows. induction l as [|a l IH]; intros rows; cbn [for_each flat_map].
  - now intros [= <-].
  - unfold bind. destruct (body a) as [r|e]; [|discriminate].
    destruct (for_each l body) as [rest|e]; [|discriminate].
    intros [= <-]. now rewrite (IH rest eq_refl).
Qed.

Lemma flat_map_ext_in (A B : Type) (f g : A -> list B) (l : list A) :
  (forall a, In a l -> f a = g a) -> flat_map f l = flat_map g l.
Proof.
  induction l as [|a l IH]; intros H; [reflexivity|].
  cbn [flat_map]. rewrite (H a (or_introl eq_refl)), IH; [reflexivity|].
  intros b Hb. apply H. now right.
Qed.

Lemma for_each_all_ok (A B : Type) (l : list A) (body : A -> result (list B))
    (rows : list B) (a : A) :
  for_each l body = Ok rows -> In a l -> exists r, body a = Ok r.
Proof.
  intros Hok Hin. destruct (body a) as [r|e] eqn:E; [now exists r|].
  destruct (for_each_raises _ _ l body a Hin (ex_intro _ e E)) as [e' He'].
  congruence.
Qed.

Lemma act_rows_ok (web : site) (base_url : str) (chapters acts : list DirectoryEntry)
    (chapter_url act_url : option str) (rows : list SectionRow) :
  act_rows web base_url acts (name_in chapters chapter_url) chapter_url act_url = Ok rows ->
  rows = map (section_row chapters acts chapter_url act_url)
             (listing_of web base_url act_url).
Proof.
  unfold act_rows, bind, listing_of, section_row, name_in.
  destruct (label_of acts act_url) as [name|e]; [|discriminate].
  destruct (_get_pages web (format_path act_url) base_url) as [sections|e];
    [|discriminate].
  now intros [= <-].
Qed.

Lemma chapter_rows_ok (web : site) (base_url : str) (chapters : list DirectoryEntry)
    (chapter_url : option str) (rows : list SectionRow) :
  chapter_rows web base_url chapters chapter_url = Ok rows ->
  rows = flat_map (fun act_url =>
           map (section_row chapters (listing_of web base_url chapter_url)
                  chapter_url act_url)
               (listing_of web base_url act_url))
         (map href (listing_of web base_url chapter_url)).
Proof.
  unfold chapter_rows, bind. unfold listing_of at 1 3.
  destruct (label_of chapters chapter_url) as [name|e] eqn:En; [|discriminate].
  destruct (_get_pages web (format_path chapter_url) base_url) as [acts|e];
    [|discriminate].
  intros H. rewrite (for_each_ok _ _ _ _ _ H). apply flat_map_ext_in.
  intros act_url Hin.
  destruct (for_each_all_ok _ _ _ _ _ act_url H Hin) as [r Hr]. rewrite Hr.
  apply act_rows_ok with (chapters := chapters).
  unfold name_in. now rewrite En.
Qed.

(** X7.  When [build_ilcs_index] returns, the index has one record for
    every file listed, in the order of the listings, chapter by chapter
    and act by act, with no file left out or added; the record carries the
    URLs of its chapter and act and, as their names, the labels of the
    first entries that have these URLs. *)
Theorem build_index_records_listed (web : site) (base_url root_path : str)
    (records : list IndexRecord) :
  build_ilcs_index web base_url root_path = Ok records ->
  records = map classify_row (listed_rows web base_url root_path).
Proof.
  intros H. destruct (build_index_records _ _ _ _ H) as (rows & Hcrawl & ->).
  f_equal. unfold crawl, bind in Hcrawl. unfold listed_rows. cbv zeta.
  unfold listing_of at 1 5. cbn [format_path].
  destruct (_get_pages web root_path base_url) as [chapters|e]; [|discriminate].
  rewrite (for_each_ok _ _ _ _ _ Hcrawl). apply flat_map_ext_in.
  intros chapter_url Hin.
  destruct (for_each_all_ok _ _ _ _ _ chapter_url Hcrawl Hin) as [r Hr]. rewrite Hr.
  now apply chapter_rows_ok.
Qed.

Lemma build_index_records_listed_witness :
  sample_index = map classify_row (listed_rows sample_site "https://ilga.gov" "/ftp/ILCS/").
Proof.
  apply build_index_records_listed. vm_compute. reflexivity.
Defined.

Lemma flat_map_length_const (A B : Type) (f : A -> list B) (l : list A) (k : nat) :
  (forall a, In a l -> length (f a) = k) -> length (flat_map f l) = length l * k.
Proof.
  induction l as [|a l IH]; intros H; [reflexivity|].
  cbn [flat_map length]. rewrite length_app, (H a (or_introl eq_refl)), IH.
  - reflexivity.
  - intros b Hb. apply H. now right.
Qed.

(** X8.  When [build_ilcs_index] returns on a site of N chapters that
    list M acts each, each act listing S files, the index has N * M * S
    records: nothing is merged, nothing dropped. *)
Theorem build_index_count (web : site) (base_url root_path : str)
    (records : list IndexRecord) (N M S : nat) :
  build_ilcs_index web base_url root_path = Ok records ->
  length (listing_of web base_url (Some root_path)) = N ->
  (forall ch, In ch (listing_of web base_url (Some root_path)) ->
     length (listing_of web base_url (href ch)) = M) ->
  (forall ch a, In ch (listing_of web base_url (Some root_path)) ->
     In a (listing_of web base_url (href ch)) ->
     length (listing_of web base_url (href a)) = S) ->
  length records = N * M * S.
Proof.
  intros H HN HM HS. rewrite (build_index_records_listed _ _ _ _ H).
  rewrite length_map. unfold listed_rows. cbv zeta.
  rewrite (flat_map_length_const _ _ _ _ (M * S)).
  - rewrite length_map, HN. lia.
  - intros chapter_url Hin. apply in_map_iff in Hin. destruct Hin as (ch & <- & Hch).
    rewrite (flat_map_length_const _ _ _ _ S).
    + rewrite length_map, (HM ch Hch). reflexivity.
    + intros act_url Hin. apply in_map_iff in Hin. destruct Hin as (a & <- & Ha).
      rewrite length_map. now apply (HS ch a).
Qed.

(** The sample site: one chapter, one act, four files. *)
Lemma build_index_count_witness : length sample_index = 1 * 1 * 4.
Proof.
  apply (build_index_count sample_site "https://ilga.gov" "/ftp/ILCS/").
  - vm_compute. reflexivity.
  - reflexivity.
  - intros ch Hch. vm_compute in Hch. destruct Hch as [<-|[]]. reflexivity.
  - intros ch a Hch. vm_compute in Hch. destruct Hch as [<-|[]].
    intros Ha. vm_compute in Ha. destruct Ha as [<-|[]]. reflexivity.
Defined.

Lemma label_of_none (data : list DirectoryEntry) :
  label_of data None = Raise IndexError.
Proof.
  unfold label_of.
  replace (List.find (fun e => eqb_href (href e) None) data) with (@None DirectoryEntry);
    [reflexivity|].
  induction data as [|e data IH]; [reflexivity|].
  cbn [List.find]. now destruct (href e).
Qed.

(** X9.  An anchor without [href] in the listing of the root or of a
    chapter ends the crawl: no label is found for the missing URL,
    [.values[0]] raises, and [build_ilcs_index] returns no index. *)
Theorem anchor_without_href_aborts (web : site) (base_url root_path : str)
    (chapters : list DirectoryEntry) (ch : DirectoryEntry) :
  _get_pages web root_path base_url = Ok chapters ->
  In ch chapters ->
  (href ch = None \/
   exists acts a, _get_pages web (format_path (href ch)) base_url = Ok acts /\
                  In a acts /\ href a = None) ->
  exists e, build_ilcs_index web base_url root_path = Raise e.
Proof.
  intros Hroot Hin Hbare.
  assert (Hcrawl : exists e, crawl web base_url root_path = Raise e).
  { unfold crawl, bind. rewrite Hroot.
    apply for_each_raises with (a := href ch); [now apply in_map|].
    unfold chapter_rows, bind.
    destruct Hbare as [Hnone | (acts & a & Hacts & Ha & Hnone)].
    - rewrite Hnone, label_of_none. now exists IndexError.
    - destruct (label_of chapters (href ch)) as [name|e]; [|now exists e].
      rewrite Hacts. apply for_each_raises with (a := href a); [now apply in_map|].
      rewrite Hnone. unfold act_rows, bind. rewrite label_of_none.
      now exists IndexError. }
  destruct Hcrawl as [e He]. exists e. unfold build_ilcs_index, bind. now rewrite He.
Qed.

Lemma anchor_without_href_aborts_witness :
  exists e, build_ilcs_index bare_anchor_site "https://ilga.gov" "/ftp/ILCS/" = Raise e.
Proof.
  apply (anchor_without_href_aborts bare_anchor_site "https://ilga.gov" "/ftp/ILCS/"
           [ {| label := "Ch 0005"; href := Some ("/ftp/ILCS/Ch%200005/" : str) |};
             {| label := "Ch 0010"; href := None |} ]
           {| label := "Ch 0010"; href := None |}).
  - vm_compute. reflexivity.
  - right. left. reflexivity.
  - left. reflexivity.
Defined.

(** * Further properties: the tables of texts *)

Lemma parse_loop (R : Type) (parse_fn : option str -> result (list R))
    (urls : list (option str)) (acc : list (R * option str) * list (option str * exn)) :
  fold_left (parse_url parse_fn) urls acc
  = (fst acc ++ flat_map (rows_from parse_fn) urls,
     snd acc ++ flat_map (failure_from parse_fn) urls).
Proof.
  revert acc. induction urls as [|url urls IH]; intros [rows log];
    cbn [fold_left flat_map fst snd].
  - now rewrite !app_nil_r.
  - rewrite IH. unfold parse_url, rows_from, failure_from. cbn [fst snd].
    destruct (parse_fn url) as [df_parsed|e]; cbn [fst snd app];
      now rewrite <- ?app_assoc.
Qed.

Lemma build_text_table_closed (R : Type) (df_urls : list IndexRecord)
    (parse_fn : option str -> result (list R)) (label : str) :
  build_text_table df_urls parse_fn label
  = (merge_left (flat_map (rows_from parse_fn) (labelled_urls df_urls label)) df_urls,
     flat_map (failure_from parse_fn) (labelled_urls df_urls label)).
Proof.
  unfold build_text_table, labelled_urls. cbv zeta. now rewrite parse_loop.
Qed.

(** X10.  A page whose parse raises does not end the loop of
    [build_acts_text_table] or [build_statutes_text_table]: it is printed,
    once, with its URL and the exception, and adds no row; the rows merged
    with the index are those of the other pages of the records that have
    the label, in the order of the index. *)
Theorem text_table_failures_isolated (R : Type) (df_urls : list IndexRecord)
    (parse_fn : option str -> result (list R)) (label : str) :
  build_acts_text_table df_urls parse_fn label
  = (merge_left (flat_map (rows_from parse_fn) (labelled_urls df_urls label)) df_urls,
     flat_map (failure_from parse_fn) (labelled_urls df_urls label)) /\
  build_statutes_text_table df_urls parse_fn label
  = (merge_left (flat_map (rows_from parse_fn) (labelled_urls df_urls label)) df_urls,
     flat_map (failure_from parse_fn) (labelled_urls df_urls label)).
Proof.
  unfold build_acts_text_table, build_statutes_text_table.
  split; apply build_text_table_closed.
Qed.

Lemma eqb_key_eq (a b : option str) : eqb_key a b = true <-> a = b.
Proof.
  destruct a as [x|], b as [y|]; cbn [eqb_key]; try (split; congruence).
  rewrite eqb_eq. split; congruence.
Qed.

Lemma records_at_absent (df_urls : list IndexRecord) (url : option str) :
  ~ In url (map section_url df_urls) -> records_at df_urls url = [].
Proof.
  unfold records_at. induction df_urls as [|a l IH]; intros Hout; [reflexivity|].
  cbn [filter]. destruct (eqb_key (section_url a) url) eqn:E.
  - apply eqb_key_eq in E. exfalso. apply Hout. left. exact E.
  - apply IH. intros Hin. apply Hout. now right.
Qed.

Lemma records_at_unique (df_urls : list IndexRecord) (r : IndexRecord) :
  NoDup (map section_url df_urls) -> In r df_urls ->
  records_at df_urls (section_url r) = [r].
Proof.
  unfold records_at.
  induction df_urls as [|a l IH]; intros Hnd Hin; [contradiction|].
  cbn [map] in Hnd. apply NoDup_cons_iff in Hnd. destruct Hnd as [Hout Hnd].
  cbn [filter]. destruct Hin as [->|Hin].
  - replace (eqb_key (section_url r) (section_url r)) with true
      by (symmetry; now apply eqb_key_eq).
    f_equal. now apply records_at_absent.
  - destruct (eqb_key (section_url a) (section_url r)) eqn:E.
    + apply eqb_key_eq in E. exfalso. apply Hout. rewrite E. now apply in_map.
    + now apply IH.
Qed.

Lemma flat_map_flat_map (A B C : Type) (f : A -> list B) (g : B -> list C) (l : list A) :
  flat_map g (flat_map f l) = flat_map (fun a => flat_map g (f a)) l.
Proof.
  induction l as [|a l IH]; [reflexivity|].
  cbn [flat_map]. now rewrite flat_map_app, IH.
Qed.

Lemma flat_map_map_in (A B : Type) (f : A -> B) (l : list A) :
  flat_map (fun a => [f a]) l = map f l.
Proof.
  induction l as [|a l IH]; [reflexivity|]. cbn. now rewrite IH.
Qed.

Lemma build_text_table_unique (R : Type) (df_urls : list IndexRecord)
    (parse_fn : option str -> result (list R)) (label : str) :
  NoDup (map section_url df_urls) ->
  fst (build_text_table df_urls parse_fn label)
  = flat_map (rows_of_record parse_fn)
      (filter (fun r => PyStr.eqb (ilcs_index_type_label r) label) df_urls).
Proof.
  intros Hnd. rewrite build_text_table_closed. cbn [fst].
  unfold merge_left, labelled_urls.
  rewrite flat_map_flat_map, flat_map_concat_map, map_map, <- flat_map_concat_map.
  apply flat_map_ext_in. intros r Hr. apply filter_In in Hr. destruct Hr as [Hr _].
  unfold rows_from, rows_of_record.
  destruct (parse_fn (section_url r)) as [df_parsed|e]; [|reflexivity].
  rewrite flat_map_concat_map, map_map, <- flat_map_concat_map. cbn [fst snd].
  fold (records_at df_urls (section_url r)). rewrite (records_at_unique _ _ Hnd Hr).
  cbn [map]. apply flat_map_map_in.
Qed.

(** X11.  When no two records of the index have the same URL, the table
    of [build_acts_text_table] or [build_statutes_text_table] has, for
    each record that has the label and whose page is parsed, the rows
    parsed of its page, each with the URL and the file name of that
    record, in the order of the index; the other records give no row. *)
Theorem text_table_unique_urls (R : Type) (df_urls : list IndexRecord)
    (parse_fn : option str -> result (list R)) (label : str) :
  NoDup (map section_url df_urls) ->
  fst (build_acts_text_table df_urls parse_fn label)
  = flat_map (rows_of_record parse_fn)
      (filter (fun r => PyStr.eqb (ilcs_index_type_label r) label) df_urls) /\
  fst (build_statutes_text_table df_urls parse_fn label)
  = flat_map (rows_of_record parse_fn)
      (filter (fun r => PyStr.eqb (ilcs_index_type_label r) label) df_urls).
Proof.
  intros Hnd. unfold build_acts_text_table, build_statutes_text_table.
  split; now apply build_text_table_unique.
Qed.

Lemma sample_index_urls_differ : NoDup (map section_url sample_index).
Proof.
  vm_compute.
  repeat (apply NoDup_cons; [cbn [In]; intuition discriminate|]).
  apply NoDup_nil.
Qed.

Lemma text_table_unique_urls_witness :
  fst (build_acts_text_table sample_index (act_parse_fn corpus_site "https://ilga.gov")
         "Act (F)")
  = flat_map (rows_of_record (act_parse_fn corpus_site "https://ilga.gov"))
      (filter (fun r => PyStr.eqb (ilcs_index_type_label r) "Act (F)") sample_index) /\
  fst (build_statutes_text_table sample_index
         (act_parse_fn corpus_site "https://ilga.gov") "Act (F)")
  = flat_map (rows_of_record (act_parse_fn corpus_site "https://ilga.gov"))
      (filter (fun r => PyStr.eqb (ilcs_index_type_label r) "Act (F)") sample_index).
Proof.
  apply text_table_unique_urls. exact sample_index_urls_differ.
Defined.

Lemma records_at_present (df_urls : list IndexRecord) (r : IndexRecord) :
  In r df_urls -> records_at df_urls (section_url r) <> [].
Proof.
  intros Hin Hnil.
  assert (H : In r (records_at df_urls (section_url r))).
  { apply filter_In. split; [exact Hin|]. now apply eqb_key_eq. }
  rewrite Hnil in H. contradiction.
Qed.

Lemma merge_left_url_length (R : Type) (df_urls : list IndexRecord)
    (parse_fn : option str -> result (list R)) (url : option str) :
  records_at df_urls url <> [] ->
  length (merge_left (rows_from parse_fn url) df_urls)
  = length (rows_from parse_fn url) * length (records_at df_urls url).
Proof.
  intros Hne. unfold merge_left. apply flat_map_length_const.
  intros [row u] Hin. cbn [fst snd].
  assert (u = url) as ->.
  { unfold rows_from in Hin. destruct (parse_fn url); [|contradiction].
    apply in_map_iff in Hin. destruct Hin as (x & [= _ <-] & _). reflexivity. }
  fold (records_at df_urls url).
  destruct (records_at df_urls url); [congruence|]. now rewrite length_map.
Qed.

Lemma merge_left_urls_length (R : Type) (df_urls : list IndexRecord)
    (parse_fn : option str -> result (list R)) (urls : list (option str)) :
  (forall url, In url urls -> records_at df_urls url <> []) ->
  length (merge_left (flat_map (rows_from parse_fn) urls) df_urls)
  = list_sum (map (fun url => length (rows_from parse_fn url)
                              * length (records_at df_urls url)) urls).
Proof.
  induction urls as [|url urls IH]; intros Hsub; [reflexivity|].
  change (flat_map (rows_from parse_fn) (url :: urls))
    with (rows_from parse_fn url ++ flat_map (rows_from parse_fn) urls).
  unfold merge_left at 1. rewrite flat_map_app. fold (merge_left (rows_from parse_fn url) df_urls).
  fold (merge_left (flat_map (rows_from parse_fn) urls) df_urls).
  rewrite length_app, IH, merge_left_url_length.
  - reflexivity.
  - apply Hsub. now left.
  - intros u Hu. apply Hsub. now right.
Qed.

Lemma build_text_table_length (R : Type) (df_urls : list IndexRecord)
    (parse_fn : option str -> result (list R)) (label : str) :
  length (fst (build_text_table df_urls parse_fn label))
  = list_sum (map (fun url => length (rows_from parse_fn url)
                              * length (records_at df_urls url))
                  (labelled_urls df_urls label)).
Proof.
  rewrite build_text_table_closed. cbn [fst].
  apply merge_left_urls_length.
  intros url Hin. unfold labelled_urls in Hin. apply in_map_iff in Hin.
  destruct Hin as (r & <- & Hr). apply filter_In in Hr.
  apply records_at_present. tauto.
Qed.

(** X12.  The merge multiplies the rows: a URL gives as many rows as its
    page has parsed rows times the records of the index that have this
    URL, and it is parsed once for each of these records that has the
    label; so a page listed twice with the label comes out four times. *)
Theorem text_table_row_count (R : Type) (df_urls : list IndexRecord)
    (parse_fn : option str -> result (list R)) (label : str) :
  length (fst (build_acts_text_table df_urls parse_fn label))
  = list_sum (map (fun url => length (rows_from parse_fn url)
                              * length (records_at df_urls url))
                  (labelled_urls df_urls label)) /\
  length (fst (build_statutes_text_table df_urls parse_fn label))
  = list_sum (map (fun url => length (rows_from parse_fn url)
                              * length (records_at df_urls url))
                  (labelled_urls df_urls label)).
Proof.
  unfold build_acts_text_table, build_statutes_text_table.
  split; apply build_text_table_length.
Qed.

(** The section of the sample index listed twice: four rows. *)
Lemma repeated_section_four_rows :
  length (fst (build_statutes_text_table repeated_index
                 (statute_parse_fn corpus_site "https://ilga.gov") "Section (K)")) = 4.
Proof.
  unfold build_statutes_text_table. rewrite build_text_table_length.
  vm_compute. reflexivity.
Qed.

(** X13.  The tables depend on the parse function at the URLs of the
    records that have the label only: no other page is parsed. *)
Theorem text_table_other_pages_unread (R : Type) (df_urls : list IndexRecord)
    (parse_fn parse_fn' : option str -> result (list R)) (label : str) :
  (forall r, In r df_urls -> ilcs_index_type_label r = label ->
             parse_fn (section_url r) = parse_fn' (section_url r)) ->
  build_acts_text_table df_urls parse_fn label
  = build_acts_text_table df_urls parse_fn' label /\
  build_statutes_text_table df_urls parse_fn label
  = build_statutes_text_table df_urls parse_fn' label.
Proof.
  intros Hsame. unfold build_acts_text_table, build_statutes_text_table.
  rewrite !build_text_table_closed.
  assert (Hrows : flat_map (rows_from parse_fn) (labelled_urls df_urls label)
                  = flat_map (rows_from parse_fn') (labelled_urls df_urls label)).
  { apply flat_map_ext_in. intros url Hin. unfold labelled_urls in Hin.
    apply in_map_iff in Hin. destruct Hin as (r & <- & Hr).
    apply filter_In in Hr. destruct Hr as [Hr Hl]. apply eqb_eq in Hl.
    unfold rows_from. now rewrite (Hsame r Hr Hl). }
  assert (Hlog : flat_map (failure_from parse_fn) (labelled_urls df_urls label)
                 = flat_map (failure_from parse_fn') (labelled_urls df_urls label)).
  { apply flat_map_ext_in. intros url Hin. unfold labelled_urls in Hin.
    apply in_map_iff in Hin. destruct Hin as (r & <- & Hr).
    apply filter_In in Hr. destruct Hr as [Hr Hl]. apply eqb_eq in Hl.
    unfold failure_from. now rewrite (Hsame r Hr Hl). }
  now rewrite Hrows, Hlog.
Qed.

(** The statutes of the sample index on the sample site and on the site
    with the pages: the two sites differ at the page of the act only. *)
Lemma text_table_other_pages_unread_witness :
  build_acts_text_table sample_index (act_parse_fn sample_site "https://ilga.gov")
    "Section (K)"
  = build_acts_text_table sample_index
      (fun url => if eqb_key url (Some ("/ftp/ILCS/Ch%200005/Act%200005/000500050F.html" : str))
                  then Ok [] else act_parse_fn sample_site "https://ilga.gov" url)
      "Section (K)" /\
  build_statutes_text_table sample_index (act_parse_fn sample_site "https://ilga.gov")
    "Section (K)"
  = build_statutes_text_table sample_index
      (fun url => if eqb_key url (Some ("/ftp/ILCS/Ch%200005/Act%200005/000500050F.html" : str))
                  then Ok [] else act_parse_fn sample_site "https://ilga.gov" url)
      "Section (K)".
Proof.
  apply text_table_other_pages_unread.
  intros r Hin Hlabel. vm_compute in Hin.
  destruct Hin as [<-|[<-|[<-|[<-|[]]]]]; try discriminate Hlabel; reflexivity.
Defined.

(** * Further properties: the fields of an act *)

(** A greedy star of a character class takes every character of the
    class there is, when what follows the star matches anywhere. *)
Lemma star_chr_greedy (p : ascii -> bool) (k : Re.cont) (fuel pos : nat) (s : str)
    (c : Re.caps) :
  (forall pos' s' c', k pos' s' c' <> None) ->
  length s < fuel ->
  Re.star_loop true (Re.m (Re.Chr p)) k fuel pos s c
  = k (pos + length (take_while p s)) (skipn (length (take_while p s)) s) c.
Proof.
  intros Hk. revert pos s. induction fuel as [|fuel IH]; intros pos s Hlen; [lia|].
  cbn [Re.star_loop Re.m]. unfold Re.orelse. destruct s as [|x s].
  - cbn [take_while length skipn]. now rewrite Nat.add_0_r.
  - cbn [take_while]. destruct (p x) eqn:Px.
    + replace (pos <? S pos)%nat with true by (symmetry; apply Nat.ltb_lt; lia).
      rewrite IH by (cbn [length] in Hlen; lia). cbn [length skipn].
      replace (pos + S (length (take_while p s)))
        with (S pos + length (take_while p s)) by lia.
      destruct (k (S pos + length (take_while p s))
                  (skipn (length (take_while p s)) s) c) eqn:E; [reflexivity|].
      exfalso. exact (Hk _ _ _ E).
    + cbn [length skipn]. now rewrite Nat.add_0_r.
Qed.

Lemma lstrip_skipn (s : str) :
  PyStr.lstrip s = skipn (length (take_while PyStr.isspace s)) s.
Proof.
  induction s as [|x s IH]; [reflexivity|].
  cbn [PyStr.lstrip take_while]. destruct (PyStr.isspace x); [|reflexivity].
  cbn [length skipn]. exact IH.
Qed.

Lemma firstn_take_while (p : ascii -> bool) (s : str) :
  firstn (length (take_while p s)) s = take_while p s.
Proof.
  induction s as [|x s IH]; [reflexivity|].
  cbn [take_while]. destruct (p x); [|reflexivity].
  cbn [length firstn]. now rewrite IH.
Qed.

Lemma take_while_all (s : str) : take_while (fun _ => true) s = s.
Proof. induction s as [|x s IH]; [reflexivity|]. cbn [take_while]. now rewrite IH. Qed.

Lemma match_at_field_value (label : str) (dotall : bool) (pos : nat) (s : str) :
  PyStr.startswith label s = true ->
  exists e, Re.match_at (field_pattern label dotall) pos s
            = Some (e, [(1, captured_after label s 0 dotall)]).
Proof.
  intros Hstart. unfold Re.match_at, field_pattern, captured_after.
  change (Re.m (Re.Seq (Re.lit label) ?b) pos s [] ?k)
    with (Re.m (Re.lit label) pos s [] (fun pos' s' c' => Re.m b pos' s' c' k)).
  rewrite m_lit, Hstart.
  change (Re.m (Re.Seq (Re.Star true Re.space) ?b) ?p ?t [] ?k)
    with (Re.star_loop true (Re.m (Re.Chr PyStr.isspace))
            (fun pos' s' c' => Re.m b pos' s' c' k) (S (length t)) p t []).
  rewrite star_chr_greedy;
    [| intros pos' s' c'; rewrite m_group; apply m_star_total; discriminate | lia].
  rewrite <- lstrip_skipn, m_group. cbn [Nat.add].
  set (rest := PyStr.lstrip (skipn (length label) s)).
  set (at_rest := pos + length label + length (take_while PyStr.isspace (skipn (length label) s))).
  exists (at_rest + length (take_while (dot_class dotall) rest)).
  assert (Hstar : forall (p : ascii -> bool) (k : Re.cont),
            (forall pos' s' c', k pos' s' c' <> None) ->
            Re.m (Re.Star true (Re.Chr p)) at_rest rest [] k
            = k (at_rest + length (take_while p rest))
                (skipn (length (take_while p rest)) rest) []).
  { intros p k Hk. cbn [Re.m]. apply star_chr_greedy; [exact Hk|lia]. }
  destruct dotall; unfold Re.dotall, Re.dot; rewrite Hstar by discriminate;
    unfold dot_class, not_lf;
    match goal with
    | |- context [at_rest + ?n - at_rest] =>
        replace (at_rest + n - at_rest) with n by lia
    end;
    now rewrite firstn_take_while.
Qed.

Lemma search_from_field_value (label : str) (dotall : bool) (whole : str) (pos : nat)
    (s : str) (i : nat) :
  PyStr.index label s = Some i ->
  exists e, Re.search_from (field_pattern label dotall) whole pos s
            = Some {| Re.subject := whole; Re.start := pos + i; Re.stop := e;
                      Re.groups := [(1, captured_after label s i dotall)] |}.
Proof.
  revert pos i. induction s as [|x s IH]; intros pos i; cbn [Re.search_from PyStr.index].
  - destruct (PyStr.startswith label []) eqn:Hs; [|discriminate].
    intros [= <-]. destruct (match_at_field_value label dotall pos [] Hs) as [e ->].
    exists e. now rewrite Nat.add_0_r.
  - destruct (PyStr.startswith label (x :: s)) eqn:Hs.
    + intros [= <-]. destruct (match_at_field_value label dotall pos (x :: s) Hs) as [e ->].
      exists e. now rewrite Nat.add_0_r.
    + apply (match_at_field label dotall pos) in Hs. rewrite Hs.
      destruct (PyStr.index label s) as [j|] eqn:Hj; [|discriminate].
      intros [= <-]. destruct (IH (S pos) j eq_refl) as [e ->]. exists e.
      unfold captured_after. cbn [Nat.add skipn].
      now replace (pos + S j) with (S (pos + j)) by lia.
Qed.

Lemma line_field_value (label full_text : str) (i : nat) :
  PyStr.index label full_text = Some i ->
  line_field_of label full_text
  = Some (PyStr.strip (captured_after label full_text i false)).
Proof.
  intros Hi. unfold line_field_of, Re.search.
  destruct (search_from_field_value label false full_text 0 full_text i Hi) as [e ->].
  reflexivity.
Qed.

(** X14.  The cite, the source and the short title of an act are read
    after the first occurrence of their label in the text of the block:
    the white space after the label is passed over, line feeds too, so the
    value is the rest of the line of the label or, when nothing is left on
    that line, the next line that is not blank; it is trimmed. *)
Theorem act_line_field_value (soup div : Bs4.node) (key label : str) (i : nat) :
  Bs4.find_attr "div" "align" "justify" soup = Some div ->
  In (key, label) line_fields ->
  PyStr.index label (Bs4.get_text [PyStr.LF] true div) = Some i ->
  cell key (parse_act_document soup)
  = Some (PyStr.strip
            (take_while not_lf
               (PyStr.lstrip (skipn (i + length label)
                                (Bs4.get_text [PyStr.LF] true div))))).
Proof.
  intros Hdiv Hin Hi. unfold parse_act_document. rewrite Hdiv. cbv zeta.
  apply (line_field_value label) in Hi. unfold captured_after, dot_class in Hi.
  rewrite <- Hi.
  destruct Hin as [[= <- <-]|[[= <- <-]|[[= <- <-]|[]]]]; reflexivity.
Qed.

(** On the page whose labels are in tags of their own, the cite is on
    the line after its label. *)
Lemma act_line_field_value_witness :
  cell "cite" (parse_act_document labelled_act_page)
  = Some ("35 ILCS 200/1-1 et seq." : str).
Proof.
  refine (eq_trans
    (act_line_field_value labelled_act_page
       (Bs4.Tag "div" [("align" : str, "justify" : str)]
          [Bs4.Tag "b" [] [text "(35 ILCS 200/) (from Ch. 120, par. 1-1)"];
           Bs4.Tag "b" [] [text "Title:"];
           text " An Act concerning
   revenue. ";
           Bs4.Tag "b" [] [text "Cite:"];
           text " 35 ILCS 200/1-1 et seq. ";
           Bs4.Tag "b" [] [text "Source:"];
           text " P.A. 88-455. "])
       "cite" "Cite:" 77 _ _ _) _).
  - reflexivity.
  - left. reflexivity.
  - vm_compute. reflexivity.
  - vm_compute. reflexivity.
Defined.

Lemma words_aux_chars (cur s w : str) (c : ascii) :
  (forall x, In x cur -> PyStr.isspace x = false) ->
  In w (PyStr.words_aux cur s) -> In c w -> PyStr.isspace c = false.
Proof.
  revert cur. induction s as [|x s IH]; intros cur Hcur Hw Hc; cbn [PyStr.words_aux] in Hw.
  - destruct cur as [|y cur]; [contradiction|].
    destruct Hw as [<-|[]]. apply Hcur. now apply in_rev.
  - destruct (PyStr.isspace x) eqn:Hx.
    + destruct cur as [|y cur].
      * now apply (IH []).
      * destruct Hw as [<-|Hw].
        -- apply Hcur. now apply in_rev.
        -- apply (IH []); [intros ? []| |]; assumption.
    + apply (IH (x :: cur)); [|assumption|assumption].
      intros y [<-|Hy]; [exact Hx|now apply Hcur].
Qed.

Lemma join_space_chars (ws : list str) (c : ascii) :
  In c (PyStr.join " " ws) -> c = PyStr.SPACE \/ exists w, In w ws /\ In c w.
Proof.
  induction ws as [|w ws IH]; [contradiction|].
  destruct ws as [|w' ws].
  - cbn [PyStr.join]. intros Hc. right. exists w. split; [now left|exact Hc].
  - change (PyStr.join " " (w :: w' :: ws))
      with (w ++ (" " : str) ++ PyStr.join " " (w' :: ws)).
    intros Hc. apply in_app_or in Hc. destruct Hc as [Hc|Hc].
    + right. exists w. split; [now left|exact Hc].
    + apply in_app_or in Hc. destruct Hc as [Hc|Hc].
      * left. destruct Hc as [<-|[]]. reflexivity.
      * destruct (IH Hc) as [->|(u & Hu & Hcu)]; [now left|].
        right. exists u. split; [now right|exact Hcu].
Qed.

(** X15.  The title description of an act is the text between the first
    [Title:] of the block and the first [Cite:] after it, or the end of the
    block when no [Cite:] follows, over as many lines as there are, its
    runs of white space made one space each: no line feed, tabulation or
    non-breaking space is left in it. *)
Theorem act_title_description_value (soup div : Bs4.node) (i : nat) :
  Bs4.find_attr "div" "align" "justify" soup = Some div ->
  PyStr.index "Title:" (Bs4.get_text [PyStr.LF] true div) = Some i ->
  exists title_description,
    cell "title_description" (parse_act_document soup) = Some title_description /\
    title_description
    = PyStr.join " "
        (PyStr.words
           (PyStr.strip
              (fst (PyStr.split1 "Cite:"
                      (PyStr.lstrip (skipn (i + 6) (Bs4.get_text [PyStr.LF] true div))))))) /\
    forall c, In c title_description -> PyStr.isspace c = true -> c = PyStr.SPACE.
Proof.
  intros Hdiv Hi. eexists. split; [|split; [reflexivity|]].
  - unfold parse_act_document. rewrite Hdiv. cbv zeta.
    change (cell "title_description" _)
      with (title_description_of (Bs4.get_text [PyStr.LF] true div)).
    unfold title_description_of, Re.search.
    destruct (search_from_field_value "Title:" true
                (Bs4.get_text [PyStr.LF] true div) 0
                (Bs4.get_text [PyStr.LF] true div) i Hi) as [e ->].
    unfold Re.group. cbn [Re.groups Re.lookup Nat.eqb].
    unfold captured_after, dot_class. rewrite take_while_all. reflexivity.
  - intros c Hc Hspace. apply join_space_chars in Hc.
    destruct Hc as [->|(w & Hw & Hcw)]; [reflexivity|].
    unfold PyStr.words in Hw.
    assert (Hnot : PyStr.isspace c = false).
    { eapply (words_aux_chars []); [intros ? []|exact Hw|exact Hcw]. }
    congruence.
Qed.

Lemma act_title_description_value_witness :
  exists title_description,
    cell "title_description" (parse_act_document sample_act_page) = Some title_description /\
    title_description = ("An Act concerning revenue." : str) /\
    forall c, In c title_description -> PyStr.isspace c = true -> c = PyStr.SPACE.
Proof.
  destruct (act_title_description_value sample_act_page
       (Bs4.Tag "div" [("align" : str, "justify" : str)]
             [Bs4.Tag "b" [] [text "(35 ILCS 200/) (from Ch. 120, par. 1-1)"];
              Bs4.Tag "br" [] [];
              text " Title:  An Act concerning
   revenue. ";
              Bs4.Tag "br" [] [];
              text "Cite: 35 ILCS 200/1-1 et seq."]) 40 eq_refl eq_refl)
    as (td & H1 & H2 & H3).
  exists td. split; [exact H1|]. split; [|exact H3].
  rewrite H2. vm_compute. reflexivity.
Defined.

(** * Further properties: the statute pages *)







(** A page without a section line: the source is read, the text is empty. *)
Lemma no_section_page_empty_text :
  exists r,
    parse_statute_document no_section_page = Ok r /\
    statute_section_number r = None /\
    statute_source r = Some ("(Source: P.A. 90-655, eff. 7-30-98.)" : str) /\
    statute_text r = [].
Proof.
  eexists. split; [vm_compute; reflexivity|]. repeat split.
Qed.

(** * Further properties: the citation of a statute *)









